(** * toml1s: the Chainlink job client (main.py, delete_all_jobs.py)

    A shallow embedding of the two scripts of the repository and the
    properties of their session cache, their run poller and their request
    plumbing.

    - [Py]: the Python values the scripts handle (decoded JSON), with the
      language's truthiness, [dict.get], iteration and [str.lower].
    - [Sys]: the world the scripts act on (the HTTP server, the clock, the
      two files, the console) and the monad of effects: state, Python
      exceptions, and fuel for the one unbounded loop.
    - [Main]: main.py, function by function.
    - [DeleteAllJobs]: delete_all_jobs.py, function by function.
    - the properties, one section per subject. *)

From Stdlib Require Import ZArith QArith List String Ascii Bool Lia.
From Stdlib Require Import DecimalString.
Import ListNotations.

Local Open Scope string_scope.
Local Open Scope Z_scope.

#[local] Set Warnings "-register-all".

(* ================================================================== *)
(** * Python values *)
(* ================================================================== *)

Module Py.

(** What [json.load] and [response.json()] produce.  A [dict] is kept as its
    list of items; [get] reads the first item of a key, so an association list
    with a repeated key stands for the dict of its first occurrences.  Numbers
    are integers: the scripts only ever test a number for truth and print it. *)
Inductive json : Type :=
| JNull
| JBool (b : bool)
| JNum (n : Z)
| JStr (s : string)
| JList (l : list json)
| JObj (items : list (string * json)).

(** [bool(v)]: [None], [False], [0], [""], [[]] and [{}] are false. *)
Definition truthy (v : json) : bool :=
  match v with
  | JNull => false
  | JBool b => b
  | JNum n => negb (n =? 0)
  | JStr s => negb (s =? "")%string
  | JList l => match l with [] => false | _ :: _ => true end
  | JObj items => match items with [] => false | _ :: _ => true end
  end.

(** [v is None] and [v is not None]. *)
Definition is_none (v : json) : bool :=
  match v with JNull => true | _ => false end.

Definition is_not_none (v : json) : bool := negb (is_none v).

(** The exceptions the scripts can meet.  [RequestException] stands for
    [requests.exceptions.RequestException] and its subclasses (connection
    errors, timeouts, and the [HTTPError] of [raise_for_status]);
    [Exception] is a plain [raise Exception(...)], with its message's format;
    [SystemExit] is what [sys.exit] and [exit] raise. *)
Inductive exn : Type :=
| RequestException
| JSONDecodeError
| AttributeError
| TypeError
| ValueError
| UnboundLocalError
| Exception (message : string)
| SystemExit (code : Z).

(** [except Exception] catches everything but [SystemExit], which derives
    from [BaseException] only. *)
Definition is_Exception (e : exn) : bool :=
  match e with SystemExit _ => false | _ => true end.

Definition is_RequestException (e : exn) : bool :=
  match e with RequestException => true | _ => false end.

Definition is_JSONDecodeError (e : exn) : bool :=
  match e with JSONDecodeError => true | _ => false end.

(** The result of evaluating an expression that may raise. *)
Inductive result (A : Type) : Type :=
| Ok (a : A)
| Throw (e : exn).
Arguments Ok {A} a.
Arguments Throw {A} e.

Fixpoint assoc (k : string) (items : list (string * json)) : option json :=
  match items with
  | [] => None
  | (k', v) :: rest => if (k =? k')%string then Some v else assoc k rest
  end.

(** The value of key [k] among the items of a dict, [default] without it. *)
Definition item (items : list (string * json)) (k : string) (default : json)
  : json :=
  match assoc k items with
  | Some v => v
  | None => default
  end.

(** [d.get(k, default)]; on anything but a dict the attribute [get] is
    missing. *)
Definition get (d : json) (k : string) (default : json) : result json :=
  match d with
  | JObj items => Ok (item items k default)
  | _ => Throw AttributeError
  end.

Fixpoint chars (s : string) : list json :=
  match s with
  | EmptyString => []
  | String c rest => JStr (String c EmptyString) :: chars rest
  end.

(** What a [for] loop or a generator sees of a value: the elements of a list,
    the keys of a dict, the characters of a string; anything else is not
    iterable.  (The scripts only test such elements against [None] or call
    [.get] on them, so a string is split here byte by byte.) *)
Definition iter (v : json) : result (list json) :=
  match v with
  | JList l => Ok l
  | JObj items => Ok (map (fun kv => JStr (fst kv)) items)
  | JStr s => Ok (chars s)
  | _ => Throw TypeError
  end.

(** [any(p(e) for e in v)] and [all(p(e) for e in v)], for a test [p] that
    cannot raise. *)
Definition any (p : json -> bool) (v : json) : result bool :=
  match iter v with
  | Ok l => Ok (existsb p l)
  | Throw e => Throw e
  end.

Definition all (p : json -> bool) (v : json) : result bool :=
  match iter v with
  | Ok l => Ok (forallb p l)
  | Throw e => Throw e
  end.

Definition lower_ascii (c : ascii) : ascii :=
  let n := nat_of_ascii c in
  if (65 <=? n)%nat && (n <=? 90)%nat then ascii_of_nat (n + 32) else c.

(** [s.lower()] on the bytes of [s].  Python lowers by code point; the
    scripts compare the result with ["completed"] and ["errored"] only, and no
    character outside ASCII lowers to a letter of these two words, so the
    comparison comes out the same. *)
Fixpoint lower (s : string) : string :=
  match s with
  | EmptyString => EmptyString
  | String c rest => String (lower_ascii c) (lower rest)
  end.

(** [v.lower()]: only a [str] has the method. *)
Definition str_lower (v : json) : result string :=
  match v with
  | JStr s => Ok (lower s)
  | _ => Throw AttributeError
  end.

End Py.

(* ================================================================== *)
(** * The world and the effects *)
(* ================================================================== *)

Module Sys.
Import Py.

(** A naive [datetime], as microseconds on the local time line. *)
Definition datetime : Type := Z.

(** [timedelta(hours=h)]. *)
Definition timedelta_hours (h : Z) : Z := h * 3600 * 1000000.

(** The library functions whose results the scripts only pass on: [str] on a
    decoded value, [datetime.isoformat], [datetime.fromisoformat] ([None]
    where it raises [ValueError]) and [datetime.fromtimestamp] ([None] where
    the timestamp is out of the platform's range).  Everything below holds for
    any such functions. *)
Class PyLib : Type := {
  py_str : json -> string;
  isoformat : datetime -> string;
  fromisoformat : string -> option datetime;
  fromtimestamp : Z -> option datetime
}.

(** The text of a file or of a response body: a JSON document, kept as the
    value [json.load] decodes it to (and [json.dump] wrote it from), or a
    text that is no JSON document. *)
Inductive text : Type :=
| Doc (j : json)
| Garbage (s : string).

(** [http.cookiejar.Cookie]: [expires] is [None] or a POSIX timestamp. *)
Record cookie : Type := mkCookie {
  name : string;
  value : string;
  expires : option Z
}.

Record response : Type := mkResponse {
  status_code : Z;
  body : text;
  cookies : list cookie
}.

(** What a call of [requests.get], [.post] or [.delete] comes back with: a
    response, or a [RequestException] (no connection, timeout, ...). *)
Inductive http_result : Type :=
| NetworkError
| Response (r : response).

Inductive method : Type := GET | POST | DELETE.

(** The URLs the scripts build from [BASE_URL]. *)
Inductive endpoint : Type :=
| Base                  (* {BASE_URL} *)
| Sessions              (* {BASE_URL}/sessions *)
| Jobs                  (* {BASE_URL}/v2/jobs *)
| Job (job_id : json)   (* {BASE_URL}/v2/jobs/{job_id} *)
| Runs (job_id : json). (* {BASE_URL}/v2/jobs/{job_id}/runs *)

(** A request as sent: [session] is the [(cookie_name, token)] of its Cookie
    header, [payload] its JSON body. *)
Record request : Type := mkRequest {
  meth : method;
  target : endpoint;
  session : option (json * json);
  payload : option json
}.

(** The world of a run.  The first four fields are the environment, which the
    scripts only read: the server's reply to the n-th request sent, the n-th
    reading of the clock (as [time.time()] and as [datetime.now()]), the
    process environment after [load_dotenv], and the contents of config.toml.
    The others are what the scripts change: the token file, the requests sent
    (latest first), the number of clock readings and of [time.sleep(2)]
    calls, and the lines printed (latest first, each by its format). *)
Record world : Type := mkWorld {
  reply : nat -> http_result;
  wall : nat -> Q;
  today : nat -> datetime;
  environ : string -> option string;
  config_toml : option string;
  token_file : option text;
  sent : list request;
  readings : nat;
  naps : nat;
  stdout : list string
}.

Definition set_token_file (f : option text) (w : world) : world :=
  mkWorld (reply w) (wall w) (today w) (environ w) (config_toml w)
          f (sent w) (readings w) (naps w) (stdout w).

Definition set_sent (l : list request) (w : world) : world :=
  mkWorld (reply w) (wall w) (today w) (environ w) (config_toml w)
          (token_file w) l (readings w) (naps w) (stdout w).

Definition set_readings (n : nat) (w : world) : world :=
  mkWorld (reply w) (wall w) (today w) (environ w) (config_toml w)
          (token_file w) (sent w) n (naps w) (stdout w).

Definition set_naps (n : nat) (w : world) : world :=
  mkWorld (reply w) (wall w) (today w) (environ w) (config_toml w)
          (token_file w) (sent w) (readings w) n (stdout w).

Definition set_stdout (l : list string) (w : world) : world :=
  mkWorld (reply w) (wall w) (today w) (environ w) (config_toml w)
          (token_file w) (sent w) (readings w) (naps w) l.

(** How a computation ends: it returns, it raises, or the fuel given to the
    polling loop ran out before the loop ended. *)
Inductive outcome (A : Type) : Type :=
| Ret (a : A)
| Raise (e : exn)
| OutOfFuel.
Arguments Ret {A} a.
Arguments Raise {A} e.
Arguments OutOfFuel {A}.

(** A computation: from a world to its outcome and the world it leaves. *)
Definition M (A : Type) : Type := world -> outcome A * world.

Definition ret {A} (a : A) : M A := fun w => (Ret a, w).

Definition raise {A} (e : exn) : M A := fun w => (Raise e, w).

Definition bind {A B} (c : M A) (k : A -> M B) : M B :=
  fun w =>
    match c w with
    | (Ret a, w') => k a w'
    | (Raise e, w') => (Raise e, w')
    | (OutOfFuel, w') => (OutOfFuel, w')
    end.

Definition lift {A} (r : result A) : M A :=
  match r with
  | Ok a => ret a
  | Throw e => raise e
  end.

Declare Scope py_scope.
Delimit Scope py_scope with py.
Notation "x <- c ;; k" := (bind c (fun x => k))
  (at level 61, c at next level, right associativity) : py_scope.
Notation "' pat <- c ;; k" := (bind c (fun x => match x with pat => k end))
  (at level 61, pat pattern, c at next level, right associativity) : py_scope.
Notation "c ;; k" := (bind c (fun _ => k))
  (at level 61, right associativity) : py_scope.
Local Open Scope py_scope.

(** [try: c / except <handled>: h]: [handler e] is the body of the first
    [except] clause that matches [e], if one does. *)
Definition try_except {A} (c : M A) (handler : exn -> option (M A)) : M A :=
  fun w =>
    match c w with
    | (Raise e, w') =>
        match handler e with
        | Some h => h w'
        | None => (Raise e, w')
        end
    | r => r
    end.

(** [try: x = c; rest(x) / finally: final], where [final] reads the local
    [x]: it gets [Some x] once the assignment is done and [None] while [x] is
    still unbound.  The [finally] clause runs however the body ends; an
    exception it raises replaces the body's outcome. *)
Definition try_finally {L A} (c : M L) (rest : L -> M A)
    (final : option L -> M unit) : M A :=
  fun w =>
    match c w with
    | (Ret x, w1) =>
        match rest x w1 with
        | (OutOfFuel, w2) => (OutOfFuel, w2)
        | (r, w2) =>
            match final (Some x) w2 with
            | (Ret _, w3) => (r, w3)
            | (Raise e, w3) => (Raise e, w3)
            | (OutOfFuel, w3) => (OutOfFuel, w3)
            end
        end
    | (Raise e, w1) =>
        match final None w1 with
        | (Ret _, w2) => (Raise e, w2)
        | (Raise e', w2) => (Raise e', w2)
        | (OutOfFuel, w2) => (OutOfFuel, w2)
        end
    | (OutOfFuel, w1) => (OutOfFuel, w1)
    end.

(** [print(...)]: the line is recorded by its format. *)
Definition print (line : string) : M unit :=
  fun w => (Ret tt, set_stdout (line :: stdout w) w).

(** [sys.exit(code)] and [exit(code)]. *)
Definition sys_exit {A} (code : Z) : M A := raise (SystemExit code).

(** [os.getenv(k)]. *)
Definition os_getenv (k : string) : M json :=
  fun w =>
    (Ret (match environ w k with Some s => JStr s | None => JNull end), w).

(** [requests.get/post/delete]: the request goes out and the server's next
    reply comes back.  The call is taken to reach the network: [requests]
    raises before anything is sent when a header cannot be encoded (a cookie
    name or a token outside latin-1), and such a call is outside this
    model. *)
Definition requests_send (r : request) : M response :=
  fun w =>
    let w' := set_sent (r :: sent w) w in
    match reply w (List.length (sent w)) with
    | NetworkError => (Raise RequestException, w')
    | Response resp => (Ret resp, w')
    end.

(** [response.raise_for_status()]: an [HTTPError] for 4xx and 5xx. *)
Definition raise_for_status (r : response) : M unit :=
  if (400 <=? status_code r) && (status_code r <? 600)
  then raise RequestException
  else ret tt.

(** [response.json()] and [json.load(f)]. *)
Definition json_load (t : text) : M json :=
  match t with
  | Doc j => ret j
  | Garbage _ => raise JSONDecodeError
  end.

(** [time.time()]. *)
Definition time_time : M Q :=
  fun w => (Ret (wall w (readings w)), set_readings (S (readings w)) w).

(** [datetime.now()]. *)
Definition datetime_now : M datetime :=
  fun w => (Ret (today w (readings w)), set_readings (S (readings w)) w).

(** [time.sleep(2)]. *)
Definition time_sleep : M unit :=
  fun w => (Ret tt, set_naps (S (naps w)) w).

(** [with open(TOKEN_FILE, "w") as f: json.dump(data, f)]: mode ["w"]
    truncates, so the file holds the new document and nothing else. *)
Definition dump_token_file (data : json) : M unit :=
  fun w => (Ret tt, set_token_file (Some (Doc data)) w).

(** How the process ends: [sys.exit(c)] gives [c], an uncaught exception 1,
    falling off the end of the script 0. *)
Definition exit_code {A} (o : outcome A) : option Z :=
  match o with
  | Ret _ => Some 0
  | Raise (SystemExit c) => Some c
  | Raise _ => Some 1
  | OutOfFuel => None
  end.

End Sys.

(* ================================================================== *)
(** * main.py *)
(* ================================================================== *)

Module Main.
Import Py Sys.
Local Open Scope py_scope.

(** What [poll_run_status] returns besides [None]. *)
Inductive run_status : Type := completed | errored.

(** How one pass through the body of [while True] ends: at a [return], or at
    the bottom of the body. *)
Inductive step : Type :=
| Return (r : option run_status)
| Continue.

Section WithLib.
Context {lib : PyLib}.

(** Lines 18-29, run when the module is loaded: the settings must be there. *)
Definition module_init : M unit :=
  BASE_URL <- os_getenv "BASE_URL" ;;
  (if negb (truthy BASE_URL) then raise ValueError else ret tt) ;;
  EMAIL <- os_getenv "EMAIL" ;;
  PASSWORD <- os_getenv "PASSWORD" ;;
  if negb (truthy EMAIL) || negb (truthy PASSWORD)
  then raise ValueError
  else ret tt.

(** [os.path.exists(TOKEN_FILE)] and [open(TOKEN_FILE, "r")]. *)
Definition open_token_file : M (option text) :=
  fun w => (Ret (token_file w), w).

(** [datetime.fromisoformat(v)]. *)
Definition datetime_fromisoformat (v : json) : M datetime :=
  match v with
  | JStr s =>
      match fromisoformat s with
      | Some d => ret d
      | None => raise ValueError
      end
  | _ => raise TypeError
  end.

(** [datetime.fromtimestamp(cookie.expires)]; out of range it raises
    ([ValueError], [OverflowError] or [OSError] by platform: one exception
    here). *)
Definition datetime_fromtimestamp (t : option Z) : M datetime :=
  match t with
  | Some e =>
      match fromtimestamp e with
      | Some d => ret d
      | None => raise ValueError
      end
  | None => raise TypeError
  end.

(** [bool(cookie.expires)]. *)
Definition has_expires (c : cookie) : bool :=
  match expires c with
  | Some e => negb (e =? 0)
  | None => false
  end.

Definition get_saved_token : M (json * json) :=
  f <- open_token_file ;;
  match f with
  | Some t =>
      data <- json_load t ;;
      token <- lift (get data "token" JNull) ;;
      cookie_name <- lift (get data "cookie_name" JNull) ;;
      expires_str <- lift (get data "expires" JNull) ;;
      if truthy token && truthy cookie_name && truthy expires_str then
        expiration <- datetime_fromisoformat expires_str ;;
        now <- datetime_now ;;
        if now <? expiration
        then ret (cookie_name, token)
        else ret (JNull, JNull)
      else ret (JNull, JNull)
  | None => ret (JNull, JNull)
  end.

Definition save_token (cookie_name token : json) (expiration : datetime)
  : M unit :=
  let data := JObj [ ("cookie_name", cookie_name);
                     ("token", token);
                     ("expires", JStr (isoformat expiration)) ] in
  dump_token_file data ;;
  print "Token saved with validity until {expiration.isoformat()}".

Definition login : M (json * json) :=
  EMAIL <- os_getenv "EMAIL" ;;
  PASSWORD <- os_getenv "PASSWORD" ;;
  let payload := JObj [("email", EMAIL); ("password", PASSWORD)] in
  response <- requests_send (mkRequest POST Sessions None (Some payload)) ;;
  if status_code response =? 200 then
    match cookies response with
    | cookie :: _ =>
        let token := JStr (value cookie) in
        let cookie_name := JStr (name cookie) in
        expiration <-
          (if has_expires cookie
           then datetime_fromtimestamp (expires cookie)
           else now <- datetime_now ;; ret (now + timedelta_hours 1)) ;;
        save_token cookie_name token expiration ;;
        ret (cookie_name, token)
    | [] => raise (Exception "No cookie was received in the response.")
    end
  else
    raise (Exception "Login error: {response.status_code} - {response.text}").

(** [next((r for r in runs if str(r.get("id")) == str(job_run_id)), None)]:
    the generator stops at the first match, so later entries are not looked
    at. *)
Fixpoint find_run (runs : list json) (job_run_id : json) : result json :=
  match runs with
  | [] => Ok JNull
  | r :: rest =>
      match get r "id" JNull with
      | Ok i =>
          if (py_str i =? py_str job_run_id)%string
          then Ok r
          else find_run rest job_run_id
      | Throw e => Throw e
      end
  end.

(** Lines 100-122: what [poll_run_status] makes of the run it found. *)
Definition inspect_run (run : json) : M step :=
  attributes <- lift (get run "attributes" (JObj [])) ;;
  status <- lift (get attributes "status" (JStr "")) ;;
  fatal_errors <- lift (get attributes "fatalErrors" (JList [])) ;;
  finished_at <- lift (get attributes "finishedAt" JNull) ;;
  fatal <- (if truthy fatal_errors
            then lift (any is_not_none fatal_errors)
            else ret false) ;;
  if fatal then
    print "Job run failed with fatalErrors: {fatal_errors}" ;;
    ret (Return (Some errored))
  else if truthy status then
    print "Current job run status: {status}" ;;
    l <- lift (str_lower status) ;;
    if (l =? "completed")%string then ret (Return (Some completed))
    else
      l' <- lift (str_lower status) ;;
      if (l' =? "errored")%string then ret (Return (Some errored))
      else ret Continue
  else if truthy finished_at then
    outputs <- lift (get attributes "outputs" (JList [])) ;;
    errors <- lift (get attributes "errors" (JList [])) ;;
    print "Job run finished. Outputs: {outputs} Errors: {errors}" ;;
    ok <- (if truthy outputs then
             filled <- lift (all is_not_none outputs) ;;
             if filled then
               if negb (truthy errors) then ret true
               else lift (all is_none errors)
             else ret false
           else ret false) ;;
    if ok then ret (Return (Some completed))
    else ret (Return (Some errored))
  else
    print "Job run attributes (empty status): {attributes}" ;;
    ret Continue.

(** Lines 95-127: the body of the loop, down to the timeout test. *)
Definition poll_query (job_id job_run_id cookie_name token : json) : M step :=
  response <- requests_send
    (mkRequest GET (Runs job_id) (Some (cookie_name, token)) None) ;;
  if status_code response =? 200 then
    doc <- json_load (body response) ;;
    runs <- lift (get doc "data" (JList [])) ;;
    entries <- lift (iter runs) ;;
    run <- lift (find_run entries job_run_id) ;;
    if truthy run then inspect_run run
    else
      print "Job run not found in the listing." ;;
      ret Continue
  else
    print "Error getting run listing: {response.status_code} - {response.text}" ;;
    ret (Return None).

(** Lines 94-131: [while True], with fuel for the passes. *)
Fixpoint poll_loop (fuel : nat) (job_id job_run_id cookie_name token : json)
    (timeout start_time : Q) : M (option run_status) :=
  match fuel with
  | O => fun w => (OutOfFuel, w)
  | S fuel' =>
      s <- poll_query job_id job_run_id cookie_name token ;;
      match s with
      | Return r => ret r
      | Continue =>
          now <- time_time ;;
          if negb (Qle_bool (now - start_time) timeout) then
            print "Timeout waiting for job run to finish." ;;
            ret None
          else
            time_sleep ;;
            poll_loop fuel' job_id job_run_id cookie_name token
                      timeout start_time
      end
  end.

Definition poll_run_status (fuel : nat)
    (job_id job_run_id cookie_name token : json) (timeout : Q)
  : M (option run_status) :=
  start_time <- time_time ;;
  poll_loop fuel job_id job_run_id cookie_name token timeout start_time.

Definition run_job (fuel : nat) (job_id cookie_name token : json) : M bool :=
  response <- requests_send
    (mkRequest POST (Runs job_id) (Some (cookie_name, token))
               (Some (JObj []))) ;;
  if (status_code response =? 200) || (status_code response =? 201) then
    result_json <- json_load (body response) ;;
    data <- lift (get result_json "data" (JObj [])) ;;
    job_run_id <- lift (get data "id" JNull) ;;
    if negb (truthy job_run_id) then
      print "Could not get job run ID from the response." ;;
      ret false
    else
      status <- poll_run_status fuel job_id job_run_id cookie_name token
                                (60 # 1) ;;
      match status with
      | Some completed =>
          print "Job {job_id} executed successfully!" ;;
          ret true
      | Some errored =>
          print "Job {job_id} failed execution." ;;
          ret false
      | None =>
          print "Could not determine the final status of the job run." ;;
          ret false
      end
  else
    print "Error executing job {job_id}: {response.status_code} - {response.text}" ;;
    ret false.

Definition list_jobs (cookie_name token : json) : M unit :=
  response <- requests_send
    (mkRequest GET Jobs (Some (cookie_name, token)) None) ;;
  if status_code response =? 200 then
    print "Jobs obtained successfully:" ;;
    _ <- json_load (body response) ;;
    print "{json.dumps(response.json(), indent=2)}"
  else
    print "Error getting jobs: {response.status_code} - {response.text}".

(** [with open(config_path, "r") as f: toml_spec = f.read()]. *)
Definition read_config : M (option string) :=
  fun w => (Ret (config_toml w), w).

Definition create_job (cookie_name token : json) : M json :=
  f <- read_config ;;
  match f with
  | None =>
      print "Error: {config_path} not found." ;;
      ret JNull
  | Some toml_spec =>
      let payload := JObj [("toml", JStr toml_spec)] in
      response <- requests_send
        (mkRequest POST Jobs (Some (cookie_name, token)) (Some payload)) ;;
      if (status_code response =? 200) || (status_code response =? 201) then
        doc <- json_load (body response) ;;
        data <- lift (get doc "data" (JObj [])) ;;
        job_id <- lift (get data "id" JNull) ;;
        if truthy job_id then ret job_id
        else
          print "Could not extract the created job ID." ;;
          ret JNull
      else
        print "Error creating job: {response.status_code} - {response.text}" ;;
        ret JNull
  end.

Definition delete_job (cookie_name token job_id : json) : M unit :=
  _ <- requests_send
    (mkRequest DELETE (Job job_id) (Some (cookie_name, token)) None) ;;
  ret tt.

(** Lines 252-272 of [main]: the saved token if there is a valid one, a
    login otherwise; the script exits with 1 where neither gives a pair. *)
Definition authenticate : M (json * json) :=
  '(cookie_name, token) <- get_saved_token ;;
  '(cookie_name, token) <-
    (if truthy token then ret (cookie_name, token)
     else
       try_except login
         (fun e =>
            if is_Exception e
            then Some (print "Login failed: {e}" ;; sys_exit 1)
            else None)) ;;
  if negb (truthy token) || negb (truthy cookie_name) then
    print "Unable to proceed without a valid token. Exiting." ;;
    sys_exit 1
  else ret (cookie_name, token).

(** [main(STATUS)].  [STATUS] is the function's parameter: the assignments
    of lines 277 and 280 bind the local, which is dropped when [main]
    returns [None]. *)
Definition main (fuel : nat) (STATUS : bool) : M unit :=
  try_except
    (response <- requests_send (mkRequest GET Base None None) ;;
     raise_for_status response)
    (fun e => if is_RequestException e then Some (ret tt) else None) ;;
  '(cookie_name, token) <- authenticate ;;
  try_finally
    (create_job cookie_name token)
    (fun job_id =>
       if is_not_none job_id then
         STATUS <- run_job fuel job_id cookie_name token ;;
         ret tt
       else
         print "Failed to create job. Exiting." ;;
         let STATUS := true in
         ret tt)
    (fun job_id =>
       match job_id with
       | Some job_id =>
           if is_not_none job_id
           then delete_job cookie_name token job_id
           else ret tt
       | None => raise UnboundLocalError
       end).

(** The script: the settings, then lines 286-293. *)
Definition script (fuel : nat) : M unit :=
  module_init ;;
  let STATUS := false in
  main fuel STATUS ;;
  print ("Exiting with status: " ++ (if STATUS then "True" else "False")) ;;
  if STATUS then sys_exit 0 else sys_exit 1.

End WithLib.
End Main.

(* ================================================================== *)
(** * delete_all_jobs.py *)
(* ================================================================== *)

Module DeleteAllJobs.
Import Py Sys.
Local Open Scope py_scope.

Section WithLib.
Context {lib : PyLib}.

(** Lines 17-28, 31-45 and 47-58 are the text of main.py's settings,
    [get_saved_token] and [save_token]. *)
Definition module_init : M unit := Main.module_init.

Definition get_saved_token : M (json * json) := Main.get_saved_token.

Definition save_token (cookie_name token : json) (expiration : datetime)
  : M unit :=
  Main.save_token cookie_name token expiration.

Definition login : M (json * json) :=
  EMAIL <- os_getenv "EMAIL" ;;
  PASSWORD <- os_getenv "PASSWORD" ;;
  let payload := JObj [("email", EMAIL); ("password", PASSWORD)] in
  print "Attempting login to {SESSION_URL}..." ;;
  try_except
    (response <- requests_send (mkRequest POST Sessions None (Some payload)) ;;
     raise_for_status response ;;
     match cookies response with
     | cookie :: _ =>
         let token := JStr (value cookie) in
         let cookie_name := JStr (name cookie) in
         expiration <-
           (if Main.has_expires cookie
            then Main.datetime_fromtimestamp (expires cookie)
            else now <- datetime_now ;; ret (now + timedelta_hours 1)) ;;
         save_token cookie_name token expiration ;;
         print "Login successful." ;;
         ret (cookie_name, token)
     | [] =>
         raise (Exception "No session cookie received in the login response.")
     end)
    (fun e =>
       if is_RequestException e
       then Some (raise (Exception "Login network error: {e}"))
       else if is_Exception e
       then Some (raise (Exception "Login failed: {e}"))
       else None).

(** [[job.get("id") for job in jobs_data if job.get("id")]]. *)
Fixpoint collect_ids (jobs_data : list json) : result (list json) :=
  match jobs_data with
  | [] => Ok []
  | job :: rest =>
      match get job "id" JNull with
      | Ok i =>
          match collect_ids rest with
          | Ok ids => Ok (if truthy i then i :: ids else ids)
          | Throw e => Throw e
          end
      | Throw e => Throw e
      end
  end.

(** The body that [response.json()] cannot decode raises a
    [JSONDecodeError]; the second [except] clause is the one written for it
    (a version of requests that derives the error from [RequestException]
    takes the first: another line printed, the same [[]] returned). *)
Definition list_job_ids (cookie_name token : json) : M (list json) :=
  print "Fetching jobs from {jobs_url}..." ;;
  try_except
    (response <- requests_send
       (mkRequest GET Jobs (Some (cookie_name, token)) None) ;;
     raise_for_status response ;;
     doc <- json_load (body response) ;;
     jobs_data <- lift (get doc "data" (JList [])) ;;
     entries <- lift (iter jobs_data) ;;
     job_ids <- lift (collect_ids entries) ;;
     print "Found {len(job_ids)} jobs." ;;
     ret job_ids)
    (fun e =>
       if is_RequestException e then
         Some (print "Error fetching jobs: {e}" ;; ret [])
       else if is_JSONDecodeError e then
         Some (print "Error decoding JSON response when fetching jobs." ;;
               ret [])
       else None).

Definition delete_job (cookie_name token job_id : json) : M bool :=
  print "Attempting to delete job {job_id} at {job_endpoint}..." ;;
  try_except
    (response <- requests_send
       (mkRequest DELETE (Job job_id) (Some (cookie_name, token)) None) ;;
     if (status_code response =? 200) || (status_code response =? 204) then
       print "Job {job_id} deleted successfully." ;;
       ret true
     else
       print "Error deleting job {job_id}: {response.status_code} - {response.text}" ;;
       ret false)
    (fun e =>
       if is_RequestException e then
         Some (print "Network error deleting job {job_id}: {e}" ;; ret false)
       else None).

(** Lines 140-154 of [main]. *)
Definition authenticate : M (json * json) :=
  '(cookie_name, token) <- get_saved_token ;;
  '(cookie_name, token) <-
    (if truthy token then
       print "Using saved token." ;;
       ret (cookie_name, token)
     else
       print "No valid saved token found. Logging in..." ;;
       try_except login
         (fun e =>
            if is_Exception e
            then Some (print "Fatal: Login failed - {e}" ;; sys_exit 1)
            else None)) ;;
  if negb (truthy token) || negb (truthy cookie_name) then
    print "Fatal: Unable to obtain authentication token." ;;
    sys_exit 1
  else ret (cookie_name, token).

(** Lines 166-170: the [for] loop, with its two counters. *)
Fixpoint delete_each (cookie_name token : json) (job_ids : list json)
    (deleted_count failed_count : nat) : M (nat * nat) :=
  match job_ids with
  | [] => ret (deleted_count, failed_count)
  | job_id :: rest =>
      ok <- delete_job cookie_name token job_id ;;
      if ok
      then delete_each cookie_name token rest (S deleted_count) failed_count
      else delete_each cookie_name token rest deleted_count (S failed_count)
  end.

Definition main : M unit :=
  print "Starting job deletion process..." ;;
  '(cookie_name, token) <- authenticate ;;
  job_ids <- list_job_ids cookie_name token ;;
  match job_ids with
  | [] =>
      print "No jobs found or error listing jobs. Exiting." ;;
      sys_exit 0
  | _ :: _ =>
      print "Starting deletion of {len(job_ids)} jobs..." ;;
      '(deleted_count, failed_count) <-
        delete_each cookie_name token job_ids 0 0 ;;
      print "Deletion process finished." ;;
      print "Successfully deleted: {deleted_count}" ;;
      print "Failed to delete: {failed_count}" ;;
      if (0 <? failed_count)%nat then sys_exit 1 else sys_exit 0
  end.

Definition script : M unit :=
  module_init ;;
  main.

End WithLib.
End DeleteAllJobs.

(* ================================================================== *)
(** * The specification's reading of a run record *)
(* ================================================================== *)

Module Spec.
Import Py Sys.

(** The status of a run as section 3 of the specification names it;
    [Pending] is "keep polling". *)
Inductive classification : Type := Completed | Errored | Pending.

(** The five fields of a run's attributes, at the types the data model
    gives them: a status string, a list of fatal errors, a finish timestamp,
    a list of outputs and a list of errors. *)
Record run_fields : Type := mkFields {
  status : string;
  fatalErrors : list json;
  finishedAt : json;
  outputs : list json;
  errors : list json
}.

(** A field that holds a string; [null] reads as the empty string. *)
Definition as_string (v : json) : option string :=
  match v with
  | JStr s => Some s
  | JNull => Some ""
  | _ => None
  end.

(** A field that holds a list; [null] reads as the empty list. *)
Definition as_list (v : json) : option (list json) :=
  match v with
  | JList l => Some l
  | JNull => Some []
  | _ => None
  end.

(** The fields of a run record of the listing, each absent field at its
    default; [None] for a record that is not of the data model's shape. *)
Definition fields_of_run (run : json) : option run_fields :=
  match run with
  | JObj items =>
      match item items "attributes" (JObj []) with
      | JObj attributes =>
          match as_string (item attributes "status" (JStr "")),
                as_list (item attributes "fatalErrors" (JList [])),
                as_list (item attributes "outputs" (JList [])),
                as_list (item attributes "errors" (JList [])) with
          | Some s, Some fe, Some o, Some e =>
              Some (mkFields s fe (item attributes "finishedAt" JNull) o e)
          | _, _, _, _ => None
          end
      | _ => None
      end
  | _ => None
  end.

Definition nonempty {A} (l : list A) : bool :=
  match l with [] => false | _ :: _ => true end.

(** The precedence rule, in the order the specification gives it.  "Present"
    and "non-empty" are Python's truth test. *)
Definition classify (f : run_fields) : classification :=
  if existsb is_not_none (fatalErrors f) then Errored
  else if negb (status f =? "")%string then
    if (lower (status f) =? "completed")%string then Completed
    else if (lower (status f) =? "errored")%string then Errored
    else Pending
  else if truthy (finishedAt f) then
    if nonempty (outputs f) && forallb is_not_none (outputs f)
       && (negb (nonempty (errors f)) || forallb is_none (errors f))
    then Completed
    else Errored
  else Pending.

(** [w'] is [w] with more lines printed, and nothing else changed. *)
Definition printed (w w' : world) : Prop :=
  exists lines, w' = set_stdout (lines ++ stdout w) w.

(** The lines [poll_run_status] prints right before it returns
    "completed" or "errored", and the two it prints right before it returns
    [None]. *)
Definition verdict_lines : list string :=
  [ "Job run failed with fatalErrors: {fatal_errors}";
    "Current job run status: {status}";
    "Job run finished. Outputs: {outputs} Errors: {errors}" ].

Definition listing_error_line : string :=
  "Error getting run listing: {response.status_code} - {response.text}".

Definition timeout_line : string :=
  "Timeout waiting for job run to finish.".

(** The line printed last. *)
Definition last_line (w : world) : string := hd "" (stdout w).

(** The reply to the request sent last. *)
Definition last_reply (w : world) : http_result :=
  reply w (pred (List.length (sent w))).

(** The clock reading taken last, as [time.time()] gave it. *)
Definition last_reading (w : world) : Q := wall w (pred (readings w)).

(** The record [save_token] writes. *)
Definition credential_record {lib : PyLib}
    (cookie_name token : json) (expiration : datetime) : json :=
  JObj [ ("cookie_name", cookie_name);
         ("token", token);
         ("expires", JStr (isoformat expiration)) ].

(** A cookie whose expiry, when it has one, is a timestamp that
    [datetime.fromtimestamp] takes. *)
Definition usable_expiry {lib : PyLib} (c : cookie) : bool :=
  if Main.has_expires c then
    match expires c with
    | Some e => match fromtimestamp e with Some _ => true | None => false end
    | None => false
    end
  else true.

(** A reply [login] makes a credential of: a response of a status it takes,
    with a first cookie of a usable expiry. *)
Definition accepted {lib : PyLib} (status_ok : Z -> bool) (r : http_result)
  : bool :=
  match r with
  | NetworkError => false
  | Response resp =>
      status_ok (status_code resp)
      && match cookies resp with
         | c :: _ => usable_expiry c
         | [] => false
         end
  end.

(** The statuses main.py's [login] takes, and those delete_all_jobs.py's
    does (the ones [raise_for_status] lets through). *)
Definition is_200 (status : Z) : bool := status =? 200.

Definition not_4xx_5xx (status : Z) : bool :=
  negb ((400 <=? status) && (status <? 600)).

(** A listing that fails: no connection, an error status, or a body that
    is no JSON document. *)
Definition listing_fails (r : http_result) : Prop :=
  match r with
  | NetworkError => True
  | Response resp =>
      400 <= status_code resp < 600 \/ exists s, body resp = Garbage s
  end.

(** What the loop body does on each classification. *)
Definition step_of (c : classification) : Main.step :=
  match c with
  | Completed => Main.Return (Some Main.completed)
  | Errored => Main.Return (Some Main.errored)
  | Pending => Main.Continue
  end.

End Spec.

(* ================================================================== *)
(** * Worlds to run the scripts in *)
(* ================================================================== *)

Module Fixtures.
Import Py Sys.

(** An instance of the library functions, for running examples: [str] on
    scalars, datetimes written as decimal numbers, timestamps accepted up to
    the year 9999. *)
Definition demo : PyLib := {|
  py_str := fun v =>
    match v with
    | JStr s => s
    | JNum n => NilZero.string_of_int (Z.to_int n)
    | JNull => "None"
    | JBool true => "True"
    | JBool false => "False"
    | JList _ => "[...]"
    | JObj _ => "{...}"
    end;
  isoformat := fun d => NilZero.string_of_int (Z.to_int d);
  fromisoformat := fun s => option_map Z.of_int (NilZero.int_of_string s);
  fromtimestamp := fun t =>
    if (0 <=? t) && (t <? 253402300800) then Some (t * 1000000) else None
|}.

Definition settings (k : string) : option string :=
  if (k =? "BASE_URL")%string then Some "http://localhost:6688"
  else if (k =? "EMAIL")%string then Some "admin@example.org"
  else if (k =? "PASSWORD")%string then Some "secret"
  else None.

(** A world whose server answers the n-th request with the n-th element of
    [replies] (no connection beyond them), whose clock reads [clock n] at the
    n-th reading, with the settings above, a config.toml, and [file] as the
    token file. *)
Definition world_of (replies : list http_result) (clock : nat -> Z)
    (file : option text) : world :=
  mkWorld (fun n => nth n replies NetworkError)
          (fun n => inject_Z (clock n))
          (fun n => clock n * 1000000)
          settings
          (Some "type = 'directrequest'")
          file [] 0 0 [].

Definition ok (status : Z) (j : json) : http_result :=
  Response (mkResponse status (Doc j) []).

Definition session_cookie (e : option Z) : cookie :=
  mkCookie "clsession" "MTcx" e.

Definition failure (status : Z) : http_result :=
  Response (mkResponse status (Garbage "Internal Server Error") []).

(** No connection at all; the clock stands still. *)
Definition offline : world := world_of [] (fun _ => 0) None.

(** The server fails the first request with a 500; the clock stands
    still. *)
Definition broken : world := world_of [failure 500] (fun _ => 0) None.

(** The listing never shows the run; the clock moves 100 seconds between
    two readings. *)
Definition slow : world :=
  world_of [ok 200 (JObj [("data", JList [])])]
           (fun n => 100 * Z.of_nat n) None.

(** A valid credential in the token file: it expires at 5000 s, the clock
    reads 1000 s. *)
Definition cached : world :=
  world_of [] (fun _ => 1000)
    (Some (Doc (JObj [ ("cookie_name", JStr "clsession");
                       ("token", JStr "MTcx");
                       ("expires", JStr "5000000000") ]))).

(** The server takes the login and sets a session cookie that expires at
    9000 s; the token file holds something else. *)
Definition fresh_login : world :=
  world_of [Response (mkResponse 200 (Doc (JObj []))
                                 [session_cookie (Some 9000)])]
           (fun _ => 1000) (Some (Garbage "stale")).

(** The server answers the login with a 200 that sets no cookie. *)
Definition no_cookie : world :=
  world_of [Response (mkResponse 200 (Doc (JObj [])) [])]
           (fun _ => 1000) None.

(** The server knows no such job: a 404 to the first request. *)
Definition missing : world := world_of [failure 404] (fun _ => 0) None.

(** A run of main.py where all goes well: the server is there, takes the
    login, creates job 7, starts run 42, lists it as completed, and deletes
    the job. *)
Definition happy : world :=
  world_of
    [ ok 200 (JObj []);
      Response (mkResponse 200 (Doc (JObj [])) [session_cookie (Some 9000)]);
      ok 200 (JObj [("data", JObj [("id", JStr "7")])]);
      ok 200 (JObj [("data", JObj [("id", JStr "42")])]);
      ok 200 (JObj [("data",
                     JList [JObj [("id", JStr "42");
                                  ("attributes",
                                   JObj [("status", JStr "completed")])]])]);
      Response (mkResponse 204 (Garbage "") []) ]
    (fun n => Z.of_nat n) None.

(** The run records of section 8 of the specification. *)
Definition run_with (attributes : list (string * json)) : json :=
  JObj [("id", JStr "42"); ("attributes", JObj attributes)].

Definition finished_clean : json :=
  run_with [ ("status", JStr ""); ("finishedAt", JStr "2025-01-01T00:00:00Z");
             ("outputs", JList [JNum 1; JNum 2]); ("errors", JList []) ].

Definition finished_with_hole : json :=
  run_with [ ("status", JStr ""); ("finishedAt", JStr "2025-01-01T00:00:00Z");
             ("outputs", JList [JNum 1; JNull]); ("errors", JList []) ].

(** The server lists two runs: run 41, still running, and run 42, finished
    with outputs [[1, 2]] and no errors. *)
Definition listed : world :=
  world_of
    [ ok 200
         (JObj [("data",
                 JList [ JObj [("id", JStr "41");
                               ("attributes",
                                JObj [("status", JStr "running")])];
                         finished_clean ])]) ]
    (fun n => Z.of_nat n) None.

(** The arguments of the calls in the examples. *)
Definition job : json := JStr "7".
Definition run_id : json := JStr "42".
Definition cname : json := JStr "clsession".
Definition tok : json := JStr "MTcx".

End Fixtures.

(* ================================================================== *)
(** * Notions for the properties of whole runs *)
(* ================================================================== *)

Module Extra.
Import Py Sys.

(** An outcome that is no [sys.exit]. *)
Definition no_exit {A} (o : outcome A) : Prop :=
  match o with
  | Raise (SystemExit _) => False
  | _ => True
  end.

(** An outcome that is no [sys.exit] with a code other than 1. *)
Definition exit_one {A} (o : outcome A) : Prop :=
  match o with
  | Raise (SystemExit c) => c = 1
  | _ => True
  end.

(** A computation that never ends in [sys.exit]. *)
Definition quiet {A} (c : M A) : Prop :=
  forall w o w', c w = (o, w') -> no_exit o.

(** A computation whose only [sys.exit] is [sys.exit(1)]. *)
Definition calm {A} (c : M A) : Prop :=
  forall w o w', c w = (o, w') -> exit_one o.

(** The world once the connectivity check of main.py's [main] is done: its
    GET has gone out, and nothing else has changed. *)
Definition after_check (w : world) : world :=
  set_sent (mkRequest GET Base None None :: sent w) w.

(** A setting that is there and not empty. *)
Definition setting (w : world) (k : string) : bool :=
  match environ w k with
  | Some s => negb (s =? "")%string
  | None => false
  end.

Definition configured (w : world) : bool :=
  setting w "BASE_URL" && setting w "EMAIL" && setting w "PASSWORD".

(** A reply delete_all_jobs.py's [delete_job] counts as a deletion. *)
Definition deleted_ok (r : http_result) : bool :=
  match r with
  | Response resp => (status_code resp =? 200) || (status_code resp =? 204)
  | NetworkError => false
  end.

(** The replies to the [k] requests sent from the [n]-th on. *)
Definition replies_from (w : world) (n k : nat) : list http_result :=
  map (reply w) (seq n k).

Definition delete_request (cookie_name token job_id : json) : request :=
  mkRequest DELETE (Job job_id) (Some (cookie_name, token)) None.

(** A request with the Cookie header of this session has been sent and
    answered by a response: the header is one the library can send.  (The
    list of requests sent has the latest first, so the request that has
    [earlier] below it is the one of that index.) *)
Definition header_answered (w : world) (cookie_name token : json) : Prop :=
  exists rq earlier later resp,
    sent w = (later ++ rq :: earlier)%list
    /\ session rq = Some (cookie_name, token)
    /\ reply w (List.length earlier) = Response resp.

Definition is_dict (v : json) : bool :=
  match v with JObj _ => true | _ => false end.

(** [entry.get("id")] of an entry that is a dict. *)
Definition id_of (v : json) : json :=
  match v with
  | JObj items => item items "id" JNull
  | _ => JNull
  end.

(** The test of [find_run]: [str(r.get("id")) == str(job_run_id)]. *)
Definition matches {lib : PyLib} (job_run_id r : json) : bool :=
  (py_str (id_of r) =? py_str job_run_id)%string.

(** The server starts run 42 of job 7 and lists it as completed. *)
Definition running : world :=
  Fixtures.world_of
    [ Fixtures.ok 200 (JObj [("data", JObj [("id", JStr "42")])]);
      Fixtures.ok 200
        (JObj [("data",
                JList [JObj [("id", JStr "42");
                             ("attributes",
                              JObj [("status", JStr "completed")])]])]) ]
    (fun n => Z.of_nat n) None.

(** The password is set, to the empty string. *)
Definition empty_password : world :=
  mkWorld (fun _ => NetworkError) (fun _ => 0%Q) (fun _ => 0)
          (fun k => if (k =? "PASSWORD")%string then Some ""
                    else Fixtures.settings k)
          None None [] 0 0 [].

(** The server sets a session cookie without a value. *)
Definition empty_cookie : world :=
  Fixtures.world_of
    [Response (mkResponse 200 (Doc (JObj []))
                          [mkCookie "clsession" "" None])]
    (fun _ => 1000) None.

(** The listing of a server with two jobs and an entry without id. *)
Definition two_jobs_listing : list json :=
  [ JObj [("id", JStr "1")]; JObj [("id", JNull)]; JObj [("id", JStr "2")] ].

(** A saved token; the server lists the two jobs, deletes the first and
    does not know the second. *)
Definition two_jobs : world :=
  Fixtures.world_of
    [ Fixtures.ok 200 (JObj [("data", JList two_jobs_listing)]);
      Response (mkResponse 204 (Garbage "") []);
      Fixtures.failure 404 ]
    (fun _ => 1000)
    (Some (Doc (JObj [ ("cookie_name", JStr "clsession");
                       ("token", JStr "MTcx");
                       ("expires", JStr "5000000000") ]))).

End Extra.

(* ================================================================== *)
(** * Properties *)
(* ================================================================== *)

Import Py Sys.
Local Open Scope py_scope.

(** ** Printing *)

Lemma printed_refl (w : world) : Spec.printed w w.
Proof. exists []. destruct w; reflexivity. Qed.

Lemma printed_print (line : string) (w w' : world) :
  Spec.printed w w' ->
  Spec.printed w (set_stdout (line :: stdout w') w').
Proof.
  intros [lines ->]. exists (line :: lines). reflexivity.
Qed.

Create HintDb py.
#[local] Hint Resolve printed_refl printed_print : py.

(** ** The classification of a run *)

Ltac run_inspect :=
  unfold Main.inspect_run, bind, lift, ret, raise, print, get, any, all,
    iter, str_lower; cbn [truthy].

(** Lines 100-122 on a run record of the data model's shape: the
    precedence rule applied to its fields. *)
Lemma inspect_run_classify
    (run : json) (f : Spec.run_fields) (w : world) :
  Spec.fields_of_run run = Some f ->
  exists w',
    Main.inspect_run run w = (Ret (Spec.step_of (Spec.classify f)), w')
    /\ Spec.printed w w'.
Proof.
  intros H.
  destruct run as [ | | | | | items]; try discriminate.
  cbn [Spec.fields_of_run] in H.
  destruct (item items "attributes" (JObj [])) as [ | | | | | attrs] eqn:Ha;
    try discriminate.
  destruct (Spec.as_string (item attrs "status" (JStr ""))) as [s|] eqn:Hs;
    try discriminate.
  destruct (Spec.as_list (item attrs "fatalErrors" (JList []))) as [fe|] eqn:Hf;
    try discriminate.
  destruct (Spec.as_list (item attrs "outputs" (JList []))) as [o|] eqn:Ho;
    try discriminate.
  destruct (Spec.as_list (item attrs "errors" (JList []))) as [e|] eqn:He;
    try discriminate.
  injection H as <-.
  run_inspect. rewrite Ha.
  unfold Spec.classify; cbn [Spec.status Spec.fatalErrors Spec.finishedAt
                              Spec.outputs Spec.errors].
  set (vs := item attrs "status" (JStr "")) in *.
  set (vf := item attrs "fatalErrors" (JList [])) in *.
  set (vo := item attrs "outputs" (JList [])) in *.
  set (ve := item attrs "errors" (JList [])) in *.
  set (vt := item attrs "finishedAt" JNull) in *.
  clearbody vs vf vo ve vt. clear Ha.
  destruct vs; try discriminate Hs; destruct vf; try discriminate Hf;
    destruct vo; try discriminate Ho; destruct ve; try discriminate He.
  all: cbn in Hs, Hf, Ho, He.
  all: injection Hs as <-; injection Hf as <-; injection Ho as <-;
    injection He as <-.
  all: unfold Spec.nonempty.
  all: repeat (lazymatch goal with
       | |- context [match ?l with [] => _ | _ :: _ => _ end] => destruct l
       | |- context [if ?b then _ else _] => destruct b eqn:?
       end; cbn in *; try discriminate).
  all: try (eexists; split; [reflexivity | eauto with py]).
  all: match goal with
       | H : match ?l with [] => _ | _ :: _ => _ end = _ |- _ =>
           destruct l; cbn in *; discriminate
       end.
Qed.

(** A pass whose listing shows the run: the body of the loop is lines
    100-122 applied to the run that [next] found. *)
Lemma poll_query_found {lib : PyLib}
    (job_id job_run_id cookie_name token : json) (w : world)
    (resp : response) (doc runs : json) (entries : list json) (run : json) :
  reply w (List.length (sent w)) = Response resp ->
  status_code resp = 200 ->
  body resp = Doc doc ->
  get doc "data" (JList []) = Ok runs ->
  iter runs = Ok entries ->
  Main.find_run entries job_run_id = Ok run ->
  truthy run = true ->
  Main.poll_query job_id job_run_id cookie_name token w
  = Main.inspect_run run
      (set_sent (mkRequest GET (Runs job_id) (Some (cookie_name, token)) None
                 :: sent w) w).
Proof.
  intros Hreply Hstatus Hbody Hdata Hiter Hfind Htruthy.
  unfold Main.poll_query, bind, requests_send.
  rewrite Hreply, Hstatus. cbn [Z.eqb Pos.eqb]. rewrite Hbody.
  cbn [json_load ret]. rewrite Hdata. cbn [lift ret]. rewrite Hiter.
  cbn [lift ret]. rewrite Hfind. cbn [lift ret]. rewrite Htruthy.
  reflexivity.
Qed.

(** C1. For a run record of the data model's shape, what [poll_run_status]
    makes of the run is the precedence rule of the specification applied to
    its fields: a non-null fatal error gives "errored"; else a non-empty
    status gives "completed" or "errored" when it is that word in any case,
    and another pass otherwise; else a finish timestamp gives "completed"
    when the outputs are non-empty and all non-null and the errors are empty
    or all null, and "errored" otherwise; else another pass.  The result is
    a function of the fields alone, and the world is only printed to.  The
    poller applies the rule to the run it found in the listing: at any pass
    whose listing shows that record as the run, the pass ends as the rule
    says, the loop returns "completed" or "errored" at once when the rule
    says so, and goes on to the timeout test when the rule says pending;
    [poll_run_status] returns that verdict when the pass is its first. *)
Theorem C1_classification_precedence {lib : PyLib}
    (run : json) (f : Spec.run_fields) (w : world) :
  Spec.fields_of_run run = Some f ->
  (exists w',
      Main.inspect_run run w = (Ret (Spec.step_of (Spec.classify f)), w')
      /\ Spec.printed w w')
  /\ (forall job_id job_run_id cookie_name token resp doc runs entries,
         reply w (List.length (sent w)) = Response resp ->
         status_code resp = 200 ->
         body resp = Doc doc ->
         get doc "data" (JList []) = Ok runs ->
         iter runs = Ok entries ->
         Main.find_run entries job_run_id = Ok run ->
         truthy run = true ->
         exists w1,
           Main.poll_query job_id job_run_id cookie_name token w
           = (Ret (Spec.step_of (Spec.classify f)), w1)
           /\ (forall fuel timeout start_time,
                  Main.poll_loop (S fuel) job_id job_run_id cookie_name token
                                 timeout start_time w
                  = match Spec.classify f with
                    | Spec.Completed => (Ret (Some Main.completed), w1)
                    | Spec.Errored => (Ret (Some Main.errored), w1)
                    | Spec.Pending =>
                        (now <- time_time ;;
                         if negb (Qle_bool (now - start_time) timeout) then
                           print Spec.timeout_line ;; ret None
                         else
                           time_sleep ;;
                           Main.poll_loop fuel job_id job_run_id cookie_name
                                          token timeout start_time) w1
                    end)
           /\ (forall fuel timeout,
                  Spec.classify f <> Spec.Pending ->
                  exists w2,
                    Main.poll_run_status (S fuel) job_id job_run_id
                                         cookie_name token timeout w
                    = (Ret (match Spec.classify f with
                            | Spec.Completed => Some Main.completed
                            | _ => Some Main.errored
                            end), w2))).
Proof.
  intros Hf. split; [exact (inspect_run_classify run f w Hf) |].
  intros job_id job_run_id cookie_name token resp doc runs entries
         Hreply Hstatus Hbody Hdata Hiter Hfind Htruthy.
  pose proof (poll_query_found job_id job_run_id cookie_name token w
                resp doc runs entries run
                Hreply Hstatus Hbody Hdata Hiter Hfind Htruthy) as Hq.
  destruct (inspect_run_classify run f
              (set_sent (mkRequest GET (Runs job_id)
                                   (Some (cookie_name, token)) None
                         :: sent w) w) Hf) as (w1 & Hi & _).
  exists w1. rewrite Hq, Hi. split; [reflexivity |]. split.
  - intros fuel timeout start_time.
    cbn [Main.poll_loop]. unfold bind at 1. rewrite Hq, Hi.
    destruct (Spec.classify f); reflexivity.
  - intros fuel timeout Hterminal.
    unfold Main.poll_run_status, bind at 1, time_time.
    cbn [Main.poll_loop]. unfold bind at 1.
    rewrite (poll_query_found job_id job_run_id cookie_name token
               (set_readings (S (readings w)) w)
               resp doc runs entries run
               Hreply Hstatus Hbody Hdata Hiter Hfind Htruthy).
    destruct (inspect_run_classify run f
                (set_sent (mkRequest GET (Runs job_id)
                                     (Some (cookie_name, token)) None
                           :: sent (set_readings (S (readings w)) w))
                          (set_readings (S (readings w)) w)) Hf)
      as (w2 & Hi2 & _).
    rewrite Hi2. exists w2.
    destruct (Spec.classify f); try reflexivity.
    now contradiction Hterminal.
Qed.

(** Symbolic execution of a computation in a hypothesis: split on what the
    next [match] or [if] looks at. *)
Ltac split_match H :=
  match type of H with
  | context [match ?x with _ => _ end] =>
      lazymatch x with
      | context [match _ with _ => _ end] => fail
      | _ => destruct x eqn:?
      end
  end.

Ltac exec H :=
  repeat (cbn in H; first [ discriminate H | split_match H ]).

(** C1, on the examples of the specification: the listing shows run 42
    with outputs [[1, 2]] and no errors, and [poll_run_status] returns
    "completed" at its first pass. *)
Lemma C1_witness :
  fst (Main.poll_run_status (lib := Fixtures.demo) 1 Fixtures.job
         Fixtures.run_id Fixtures.cname Fixtures.tok (60 # 1)
         Fixtures.listed)
  = Ret (Some Main.completed).
Proof.
  destruct (C1_classification_precedence (lib := Fixtures.demo)
              Fixtures.finished_clean
              (Spec.mkFields "" [] (JStr "2025-01-01T00:00:00Z")
                             [JNum 1; JNum 2] [])
              Fixtures.listed eq_refl) as [_ H].
  destruct (H Fixtures.job Fixtures.run_id Fixtures.cname Fixtures.tok
              (mkResponse 200
                 (Doc (JObj [("data",
                              JList [ JObj [("id", JStr "41");
                                            ("attributes",
                                             JObj [("status",
                                                    JStr "running")])];
                                      Fixtures.finished_clean ])])) [])
              (JObj [("data",
                      JList [ JObj [("id", JStr "41");
                                    ("attributes",
                                     JObj [("status", JStr "running")])];
                              Fixtures.finished_clean ])])
              (JList [ JObj [("id", JStr "41");
                             ("attributes",
                              JObj [("status", JStr "running")])];
                       Fixtures.finished_clean ])
              [ JObj [("id", JStr "41");
                      ("attributes", JObj [("status", JStr "running")])];
                Fixtures.finished_clean ]
              eq_refl eq_refl eq_refl eq_refl eq_refl eq_refl eq_refl)
    as (w1 & _ & _ & Hrun).
  destruct (Hrun 0%nat (60 # 1)) as (w2 & Hw2); [discriminate |].
  rewrite Hw2. reflexivity.
Defined.

Example classify_status_completed :
  fst (Main.inspect_run (Fixtures.run_with [("status", JStr "COMPLETED")])
                        Fixtures.offline)
  = Ret (Main.Return (Some Main.completed)).
Proof. reflexivity. Qed.

Example classify_output_hole :
  fst (Main.inspect_run Fixtures.finished_with_hole Fixtures.offline)
  = Ret (Main.Return (Some Main.errored)).
Proof. reflexivity. Qed.

Example classify_fatal_error :
  fst (Main.inspect_run
         (Fixtures.run_with [ ("status", JStr "completed");
                              ("fatalErrors", JList [JNull; JStr "x"]) ])
         Fixtures.offline)
  = Ret (Main.Return (Some Main.errored)).
Proof. reflexivity. Qed.

Example classify_pending :
  fst (Main.inspect_run
         (Fixtures.run_with [("status", JStr ""); ("finishedAt", JNull)])
         Fixtures.offline)
  = Ret Main.Continue.
Proof. reflexivity. Qed.

Example classify_other_status :
  fst (Main.inspect_run
         (Fixtures.run_with [ ("status", JStr "running");
                              ("finishedAt", JStr "2025-01-01T00:00:00Z") ])
         Fixtures.offline)
  = Ret Main.Continue.
Proof. reflexivity. Qed.

Ltac unfold_effects_in H :=
  unfold bind, lift, ret, raise, print, get, any, all, iter, str_lower,
    requests_send, raise_for_status, json_load, time_time, datetime_now,
    time_sleep, sys_exit, os_getenv, dump_token_file, try_except,
    Main.open_token_file, Main.read_config, Main.datetime_fromisoformat,
    Main.datetime_fromtimestamp in H.

Ltac unfold_effects :=
  unfold bind, lift, ret, raise, print, get, any, all, iter, str_lower,
    requests_send, raise_for_status, json_load, time_time, datetime_now,
    time_sleep, sys_exit, os_getenv, dump_token_file, try_except,
    Main.open_token_file, Main.read_config, Main.datetime_fromisoformat,
    Main.datetime_fromtimestamp.

Ltac exec_all H := unfold_effects_in H; exec H.

Lemma printed_fields (w w' : world) :
  Spec.printed w w' ->
  reply w' = reply w /\ wall w' = wall w /\ readings w' = readings w
  /\ sent w' = sent w /\ token_file w' = token_file w.
Proof. intros [lines ->]. repeat split. Qed.

Lemma inspect_run_printed (run : json) (w w' : world)
    (o : outcome Main.step) :
  Main.inspect_run run w = (o, w') -> Spec.printed w w'.
Proof.
  intros H. unfold Main.inspect_run in H. exec_all H.
  all: injection H as <- <-; eauto with py.
Qed.

Lemma inspect_run_fuel (run : json) (w w' : world) :
  Main.inspect_run run w <> (OutOfFuel, w').
Proof.
  intros H. unfold Main.inspect_run in H. exec_all H.
Qed.

(** A [return] of lines 104-120 returns "completed" or "errored", with its
    line printed right before. *)
Lemma inspect_run_returns (run : json) (w w' : world)
    (r : option Main.run_status) :
  Main.inspect_run run w = (Ret (Main.Return r), w') ->
  r <> None /\ In (Spec.last_line w') Spec.verdict_lines.
Proof.
  intros H. unfold Main.inspect_run in H. exec_all H.
  all: injection H as <- <-.
  all: split; [discriminate | cbn; auto].
Qed.

(** ** The polling loop *)

Section Polling.
Context {lib : PyLib}.
Variables (job_id job_run_id cookie_name token : json).

Let listing : request :=
  mkRequest GET (Runs job_id) (Some (cookie_name, token)) None.

#[local] Opaque Main.inspect_run.

(** One query of the listing: what it leaves in the world, by how the pass
    ends. *)
Lemma poll_query_spec (w w' : world) (o : outcome Main.step) :
  Main.poll_query job_id job_run_id cookie_name token w = (o, w') ->
  reply w' = reply w /\ wall w' = wall w /\ readings w' = readings w
  /\ sent w' = listing :: sent w
  /\ match o with
     | Ret (Main.Return None) =>
         Spec.last_line w' = Spec.listing_error_line
         /\ exists resp, reply w (List.length (sent w)) = Response resp
                         /\ status_code resp <> 200
     | Ret (Main.Return (Some _)) =>
         In (Spec.last_line w') Spec.verdict_lines
     | Ret Main.Continue =>
         exists resp, reply w (List.length (sent w)) = Response resp
                      /\ status_code resp = 200
     | Raise _ => True
     | OutOfFuel => False
     end.
Proof.
  intros H. unfold Main.poll_query in H. exec_all H.
  all: try (injection H as <- <-; cbn;
            repeat split; eauto; try discriminate;
            match goal with
            | E : (_ =? _) = false |- _ => apply Z.eqb_neq in E
            | E : (_ =? _) = true |- _ => apply Z.eqb_eq in E
            end; eauto).
  all: pose proof (inspect_run_printed _ _ _ _ H) as Hp;
    apply printed_fields in Hp; destruct Hp as (-> & -> & -> & -> & _);
    cbn; repeat split; auto.
  all: apply Z.eqb_eq in Heqb.
  all: destruct o as [[[st|]|]| |]; eauto.
  all: try (apply inspect_run_returns in H; destruct H as [H H']; auto;
            now contradiction H).
  all: now apply inspect_run_fuel in H.
Qed.

Lemma verdict_line_known (line : string) :
  In line Spec.verdict_lines ->
  line <> Spec.listing_error_line /\ line <> Spec.timeout_line.
Proof.
  cbn. intros [<- | [<- | [<- | []]]]; split; discriminate.
Qed.

Lemma unknown_lines_differ : Spec.listing_error_line <> Spec.timeout_line.
Proof. discriminate. Qed.

(** The loop, from any pass on: how a [return] relates to the line printed
    last, and what that line tells of the last reply and the last clock
    reading. *)
Lemma poll_loop_spec (timeout start_time : Q) (fuel : nat) :
  forall (w w' : world) (r : option Main.run_status),
    Main.poll_loop fuel job_id job_run_id cookie_name token
                   timeout start_time w = (Ret r, w') ->
    reply w' = reply w /\ wall w' = wall w
    /\ (r = None <->
        Spec.last_line w' = Spec.listing_error_line
        \/ Spec.last_line w' = Spec.timeout_line)
    /\ (r <> None -> In (Spec.last_line w') Spec.verdict_lines)
    /\ (Spec.last_line w' = Spec.timeout_line ->
        (timeout < Spec.last_reading w' - start_time)%Q)
    /\ (Spec.last_line w' = Spec.listing_error_line ->
        exists resp, Spec.last_reply w' = Response resp
                     /\ status_code resp <> 200).
Proof.
  induction fuel as [|fuel IH]; intros w w' r H.
  - discriminate H.
  - cbn [Main.poll_loop] in H. unfold bind at 1 in H.
    destruct (Main.poll_query _ _ _ _ w) as [o1 w1] eqn:Hq.
    apply poll_query_spec in Hq.
    destruct Hq as (Hreply & Hwall & Hread & Hsent & Ho).
    destruct o1 as [[r1|]| |]; try discriminate H.
    + (* the pass ended at a [return] *)
      injection H as <- <-.
      unfold Spec.last_reply. rewrite Hsent, Hreply. cbn [List.length pred].
      destruct r1 as [st|].
      * destruct (verdict_line_known _ Ho) as [Hl Ht].
        repeat split; auto; try discriminate; try tauto.
      * destruct Ho as [Hline Hresp].
        repeat split; auto; try tauto.
        rewrite Hline. intros E. now apply unknown_lines_differ in E.
    + (* the pass fell through to the timeout test *)
      unfold bind, time_time in H. cbn in H.
      rewrite Hread in H.
      destruct (Qle_bool (wall w1 (readings w) - start_time) timeout)
        eqn:Hle; cbn in H.
      * apply IH in H. cbn in H.
        destruct H as (Hr' & Hw' & H).
        rewrite Hr', Hw'. auto.
      * injection H as <- <-. cbn.
        unfold Spec.last_line, Spec.last_reading, Spec.last_reply. cbn.
        repeat split; auto.
        -- intros E. apply Qnot_le_lt. intros Hq.
           apply Qle_bool_iff in Hq. congruence.
        -- discriminate.
Qed.

(** The timeout path: after a pass that falls through, a clock reading
    later than the start by more than the timeout ends the polling. *)
Lemma poll_loop_timeout (timeout start_time : Q) (fuel : nat)
    (w w1 : world) :
  Main.poll_query job_id job_run_id cookie_name token w
    = (Ret Main.Continue, w1) ->
  (timeout < wall w1 (readings w1) - start_time)%Q ->
  exists w',
    Main.poll_loop (S fuel) job_id job_run_id cookie_name token
                   timeout start_time w = (Ret None, w')
    /\ Spec.last_line w' = Spec.timeout_line.
Proof.
  intros Hq Hlt.
  cbn [Main.poll_loop]. unfold bind at 1. rewrite Hq.
  unfold bind, time_time. cbn.
  destruct (Qle_bool (wall w1 (readings w1) - start_time) timeout) eqn:Hle.
  - apply Qle_bool_iff in Hle. now apply Qlt_not_le in Hlt.
  - cbn. eexists; split; reflexivity.
Qed.

(** C2 (amended). At every pass of the loop, a listing reply whose status
    is not 200 makes [poll_run_status] return [None] at once: that one
    request is sent, the clock is not read and there is no sleep.  A network
    error is not turned into [None]: the [RequestException] leaves
    [poll_run_status], again after that one request. *)
Theorem C2_listing_failure_aborts
    (timeout start_time : Q) (fuel : nat) (w : world) :
  (forall resp,
      reply w (List.length (sent w)) = Response resp ->
      status_code resp <> 200 ->
      exists w',
        Main.poll_loop (S fuel) job_id job_run_id cookie_name token
                       timeout start_time w = (Ret None, w')
        /\ sent w' = listing :: sent w
        /\ readings w' = readings w /\ naps w' = naps w)
  /\ (reply w (List.length (sent w)) = NetworkError ->
      exists w',
        Main.poll_loop (S fuel) job_id job_run_id cookie_name token
                       timeout start_time w = (Raise RequestException, w')
        /\ sent w' = listing :: sent w
        /\ readings w' = readings w /\ naps w' = naps w).
Proof.
  split.
  - intros resp Hreply Hstatus.
    cbn [Main.poll_loop]. unfold Main.poll_query, bind, requests_send.
    rewrite Hreply. apply Z.eqb_neq in Hstatus. rewrite Hstatus. cbn.
    eexists; repeat split.
  - intros Hreply.
    cbn [Main.poll_loop]. unfold Main.poll_query, bind, requests_send.
    rewrite Hreply. cbn.
    eexists; repeat split.
Qed.

(** C3 (amended). [poll_run_status] returns [None] exactly when it ends on
    one of two paths: the listing-error path, taken when a reply's status is
    not 200, or the timeout path, taken when the time elapsed since the start
    exceeds the timeout after a pass that did not end the polling.  It
    returns "completed" or "errored" exactly when it ends on a verdict, and a
    verdict is never [None].  Conversely, at any pass that falls through, a
    clock reading that exceeds the timeout puts the loop on the timeout
    path; and at any pass whose listing shows the run, a verdict on that
    run ends the polling at once: the loop, and [poll_run_status] when the
    pass is its first, returns the verdict, which is "completed" or
    "errored". *)
Theorem C3_unknown_paths
    (timeout : Q) (fuel : nat) (w w' : world) (r : option Main.run_status) :
  Main.poll_run_status fuel job_id job_run_id cookie_name token timeout w
    = (Ret r, w') ->
  (r = None <->
   Spec.last_line w' = Spec.listing_error_line
   \/ Spec.last_line w' = Spec.timeout_line)
  /\ (Spec.last_line w' = Spec.listing_error_line ->
      exists resp, Spec.last_reply w' = Response resp
                   /\ status_code resp <> 200)
  /\ (Spec.last_line w' = Spec.timeout_line ->
      (timeout < Spec.last_reading w' - wall w (readings w))%Q)
  /\ (r <> None -> In (Spec.last_line w') Spec.verdict_lines)
  /\ (forall run w0 w0' r0,
         Main.inspect_run run w0 = (Ret (Main.Return r0), w0') ->
         r0 = Some Main.completed \/ r0 = Some Main.errored)
  /\ (forall fuel0 start_time w0 w1,
         Main.poll_query job_id job_run_id cookie_name token w0
           = (Ret Main.Continue, w1) ->
         (timeout < wall w1 (readings w1) - start_time)%Q ->
         exists w2,
           Main.poll_loop (S fuel0) job_id job_run_id cookie_name token
                          timeout start_time w0 = (Ret None, w2)
           /\ Spec.last_line w2 = Spec.timeout_line)
  /\ (forall fuel0 start_time w0 resp doc runs entries run r0 w1,
         reply w0 (List.length (sent w0)) = Response resp ->
         status_code resp = 200 ->
         body resp = Doc doc ->
         get doc "data" (JList []) = Ok runs ->
         iter runs = Ok entries ->
         Main.find_run entries job_run_id = Ok run ->
         truthy run = true ->
         Main.inspect_run run (set_sent (listing :: sent w0) w0)
           = (Ret (Main.Return r0), w1) ->
         Main.poll_loop (S fuel0) job_id job_run_id cookie_name token
                        timeout start_time w0 = (Ret r0, w1)
         /\ (r0 = Some Main.completed \/ r0 = Some Main.errored))
  /\ (forall fuel0 w0 resp doc runs entries run r0 w1,
         reply w0 (List.length (sent w0)) = Response resp ->
         status_code resp = 200 ->
         body resp = Doc doc ->
         get doc "data" (JList []) = Ok runs ->
         iter runs = Ok entries ->
         Main.find_run entries job_run_id = Ok run ->
         truthy run = true ->
         Main.inspect_run run
           (set_sent (listing :: sent w0) (set_readings (S (readings w0)) w0))
           = (Ret (Main.Return r0), w1) ->
         Main.poll_run_status (S fuel0) job_id job_run_id cookie_name token
                              timeout w0 = (Ret r0, w1)).
Proof.
  intros H. unfold Main.poll_run_status, bind, time_time in H.
  apply poll_loop_spec in H. cbn in H.
  destruct H as (_ & _ & Hnone & Hsome & Htimeout & Hlisting).
  assert (Hverdict :
            forall fuel0 start_time w0 resp doc runs entries run r0 w1,
              reply w0 (List.length (sent w0)) = Response resp ->
              status_code resp = 200 ->
              body resp = Doc doc ->
              get doc "data" (JList []) = Ok runs ->
              iter runs = Ok entries ->
              Main.find_run entries job_run_id = Ok run ->
              truthy run = true ->
              Main.inspect_run run (set_sent (listing :: sent w0) w0)
                = (Ret (Main.Return r0), w1) ->
              Main.poll_loop (S fuel0) job_id job_run_id cookie_name token
                             timeout start_time w0 = (Ret r0, w1)).
  { intros fuel0 start_time w0 resp doc runs entries run r0 w1
           Hreply Hstatus Hbody Hdata Hiter Hfind Htruthy Hinspect.
    cbn [Main.poll_loop]. unfold bind at 1.
    rewrite (poll_query_found job_id job_run_id cookie_name token w0
               resp doc runs entries run
               Hreply Hstatus Hbody Hdata Hiter Hfind Htruthy).
    unfold listing in Hinspect. rewrite Hinspect. reflexivity. }
  refine (conj Hnone (conj Hlisting (conj Htimeout (conj Hsome
            (conj _ (conj _ (conj _ _))))))).
  - intros run w0 w0' r0 Hr. apply inspect_run_returns in Hr.
    destruct Hr as [Hr _]. destruct r0 as [[|]|]; auto. now contradiction Hr.
  - intros fuel0 start_time w0 w1. apply poll_loop_timeout.
  - intros fuel0 start_time w0 resp doc runs entries run r0 w1
           Hreply Hstatus Hbody Hdata Hiter Hfind Htruthy Hinspect.
    split; [eapply Hverdict; eassumption |].
    apply inspect_run_returns in Hinspect. destruct Hinspect as [Hr _].
    destruct r0 as [[|]|]; auto. now contradiction Hr.
  - intros fuel0 w0 resp doc runs entries run r0 w1
           Hreply Hstatus Hbody Hdata Hiter Hfind Htruthy Hinspect.
    unfold Main.poll_run_status, bind at 1, time_time.
    eapply Hverdict; eassumption.
Qed.

End Polling.

(** C2, on an example: a 500 ends the polling at the first pass. *)
Lemma C2_witness :
  exists w',
    Main.poll_loop (lib := Fixtures.demo) 3 Fixtures.job Fixtures.run_id
      Fixtures.cname Fixtures.tok (60 # 1) 0 Fixtures.broken = (Ret None, w')
    /\ List.length (sent w') = 1%nat.
Proof.
  destruct (C2_listing_failure_aborts (lib := Fixtures.demo)
              Fixtures.job Fixtures.run_id Fixtures.cname Fixtures.tok
              (60 # 1) 0 2 Fixtures.broken) as [H _].
  destruct (H (mkResponse 500 (Garbage "Internal Server Error") []))
    as (w' & Hw & Hs & _).
  - reflexivity.
  - discriminate.
  - exists w'. split; [exact Hw | now rewrite Hs].
Defined.

(** C2 as stated fails: with no connection the listing query fails, and
    [poll_run_status] raises instead of returning [None]. *)
Lemma C2_counterexample :
  reply Fixtures.offline 0 = NetworkError
  /\ fst (Main.poll_run_status (lib := Fixtures.demo) 3 Fixtures.job
            Fixtures.run_id Fixtures.cname Fixtures.tok (60 # 1)
            Fixtures.offline)
     = Raise RequestException
  /\ fst (Main.poll_run_status (lib := Fixtures.demo) 3 Fixtures.job
            Fixtures.run_id Fixtures.cname Fixtures.tok (60 # 1)
            Fixtures.offline)
     <> Ret None.
Proof.
  repeat split; try reflexivity.
  vm_compute. discriminate.
Qed.

(** C3, on an example: the run never shows up, and after 100 seconds the
    timeout of 60 ends the polling on the timeout path. *)
Lemma C3_witness :
  let w' := snd (Main.poll_run_status (lib := Fixtures.demo) 3 Fixtures.job
                   Fixtures.run_id Fixtures.cname Fixtures.tok (60 # 1)
                   Fixtures.slow) in
  Spec.last_line w' = Spec.timeout_line
  /\ (60 # 1 < Spec.last_reading w' - wall Fixtures.slow 0)%Q.
Proof.
  intros w'.
  destruct (C3_unknown_paths (lib := Fixtures.demo) Fixtures.job
              Fixtures.run_id Fixtures.cname Fixtures.tok (60 # 1) 3
              Fixtures.slow w' None)
    as (_ & _ & Ht & _).
  - vm_compute. reflexivity.
  - split; [reflexivity | apply Ht; reflexivity].
Defined.

(** C3 as stated fails: a 500 at the first pass gives [None] although the
    clock never moved, no timeout test was made and the timeout line was
    not printed. *)
Lemma C3_counterexample :
  let run := Main.poll_run_status (lib := Fixtures.demo) 3 Fixtures.job
               Fixtures.run_id Fixtures.cname Fixtures.tok (60 # 1)
               Fixtures.broken in
  fst run = Ret None
  /\ (forall n, wall Fixtures.broken n - wall Fixtures.broken 0 <= 60 # 1)%Q
  /\ readings (snd run) = 1%nat
  /\ ~ In Spec.timeout_line (stdout (snd run)).
Proof.
  cbv zeta. repeat split.
  - intros n. vm_compute. discriminate.
  - vm_compute. intros [H | []]. discriminate H.
Qed.

(** ** The session: the saved token and the login *)

Section Session.
Context {lib : PyLib}.

(** C4. With a credential in the token file whose token, cookie name and
    expiry are there (true in Python's sense) and whose expiry is later than
    now, [get_saved_token] returns the saved pair, and so does the session
    step of both scripts: no request is sent, no login is made and the file
    is left as it is. *)
Theorem C4_cached_token_no_network
    (w : world) (data cookie_name token : json) (expires_str : string)
    (expiration : datetime) :
  token_file w = Some (Doc data) ->
  get data "token" JNull = Ok token ->
  get data "cookie_name" JNull = Ok cookie_name ->
  get data "expires" JNull = Ok (JStr expires_str) ->
  truthy token = true ->
  truthy cookie_name = true ->
  truthy (JStr expires_str) = true ->
  fromisoformat expires_str = Some expiration ->
  today w (readings w) < expiration ->
  (exists w',
      Main.get_saved_token w = (Ret (cookie_name, token), w')
      /\ sent w' = sent w /\ token_file w' = token_file w)
  /\ (exists w',
      DeleteAllJobs.get_saved_token w = (Ret (cookie_name, token), w')
      /\ sent w' = sent w /\ token_file w' = token_file w)
  /\ (exists w',
      Main.authenticate w = (Ret (cookie_name, token), w')
      /\ sent w' = sent w /\ token_file w' = token_file w)
  /\ (exists w',
      DeleteAllJobs.authenticate w = (Ret (cookie_name, token), w')
      /\ sent w' = sent w /\ token_file w' = token_file w).
Proof.
  intros Hfile Htok Hname Hexp Ttok Tname Texp Hiso Hnow.
  assert (Hget : Main.get_saved_token w
                 = (Ret (cookie_name, token), set_readings (S (readings w)) w)).
  { unfold Main.get_saved_token. unfold_effects.
    rewrite Hfile. destruct data; try discriminate Htok.
    cbn [get] in Htok, Hname, Hexp.
    injection Htok as <-. injection Hname as <-. injection Hexp as Hexp.
    cbn -[item truthy]. rewrite Hexp, Ttok, Tname, Texp. cbn [andb].
    rewrite Hiso. apply Z.ltb_lt in Hnow. cbn -[item Z.ltb].
    rewrite Hnow. reflexivity. }
  repeat split.
  - eexists; split; [exact Hget | split; reflexivity].
  - eexists; split; [exact Hget | split; reflexivity].
  - unfold Main.authenticate, bind at 1. rewrite Hget.
    unfold bind at 1. rewrite Ttok. cbn [ret]. rewrite Ttok, Tname. cbn.
    eexists; split; [reflexivity | split; reflexivity].
  - unfold DeleteAllJobs.authenticate, DeleteAllJobs.get_saved_token,
      bind at 1.
    rewrite Hget. unfold bind at 1. rewrite Ttok. cbn [ret bind print].
    rewrite Ttok, Tname. cbn.
    eexists; split; [reflexivity | split; reflexivity].
Qed.

Ltac unfold_login :=
  unfold Main.login, DeleteAllJobs.login, DeleteAllJobs.save_token,
    Main.save_token.

Ltac unfold_login_in H :=
  unfold Main.login, DeleteAllJobs.login, DeleteAllJobs.save_token,
    Main.save_token in H.

(** Every call of either [login] sends one request, the POST to the
    sessions endpoint, and no other. *)
Lemma login_one_request (w w' : world) (o : outcome (json * json)) :
  Main.login w = (o, w') \/ DeleteAllJobs.login w = (o, w') ->
  exists rq, sent w' = rq :: sent w
             /\ meth rq = POST /\ target rq = Sessions.
Proof.
  intros [H | H]; unfold_login_in H; exec_all H.
  all: injection H as <- <-; cbn; eexists; repeat split.
Qed.

(** C5 (amended). [login] raises exactly when the reply is not one it makes
    a credential of: the request met a network error, or the response has a
    status [login] does not take (any but 200 in main.py; 400 to 599 in
    delete_all_jobs.py), or it carries no cookie, or its first cookie has an
    expiry that does not convert to a datetime.  On every other reply, so on
    every 200 with a cookie of a usable expiry, it returns.  What main.py
    raises is caught by [except Exception]; delete_all_jobs.py raises a
    plain [Exception].  Either way one request was sent: there is no
    retry. *)
Theorem C5_login_outcome (w : world) :
  (if Spec.accepted Spec.is_200 (reply w (List.length (sent w)))
   then exists p w', Main.login w = (Ret p, w')
   else exists e w', Main.login w = (Raise e, w') /\ is_Exception e = true)
  /\ (if Spec.accepted Spec.not_4xx_5xx (reply w (List.length (sent w)))
      then exists p w', DeleteAllJobs.login w = (Ret p, w')
      else exists m w', DeleteAllJobs.login w = (Raise (Exception m), w'))
  /\ (forall o w',
         Main.login w = (o, w') \/ DeleteAllJobs.login w = (o, w') ->
         exists rq, sent w' = rq :: sent w).
Proof.
  repeat split.
  - unfold_login. unfold_effects.
    unfold Spec.accepted, Spec.usable_expiry, Spec.is_200.
    destruct (reply w (List.length (sent w))) as [|resp]; cbn.
    { eexists; eexists; split; reflexivity. }
    destruct (status_code resp =? 200); cbn;
      [| eexists; eexists; split; reflexivity].
    destruct (cookies resp) as [|c rest]; cbn;
      [eexists; eexists; split; reflexivity |].
    destruct (Main.has_expires c); cbn;
      [| eexists; eexists; reflexivity].
    destruct (expires c) as [e|]; cbn;
      [| eexists; eexists; split; reflexivity].
    destruct (fromtimestamp e); cbn;
      [eexists; eexists; reflexivity | eexists; eexists; split; reflexivity].
  - unfold_login. unfold_effects.
    unfold Spec.accepted, Spec.usable_expiry, Spec.not_4xx_5xx.
    cbn -[Z.leb Z.ltb].
    destruct (reply w (List.length (sent w))) as [|resp]; cbn -[Z.leb Z.ltb].
    { eexists; eexists; reflexivity. }
    destruct ((400 <=? status_code resp) && (status_code resp <? 600)); cbn;
      [eexists; eexists; reflexivity |].
    destruct (cookies resp) as [|c rest]; cbn;
      [eexists; eexists; reflexivity |].
    destruct (Main.has_expires c); cbn;
      [| eexists; eexists; reflexivity].
    destruct (expires c) as [e|]; cbn;
      [| eexists; eexists; reflexivity].
    destruct (fromtimestamp e); cbn; eexists; eexists; reflexivity.
  - intros o w' H. apply login_one_request in H.
    destruct H as (rq & H & _). now exists rq.
Qed.

(** C6. After a [login] that returned, in either script, the token file
    holds the credential record of the first cookie and nothing else,
    whatever it held before: the cookie's name and value, and as expiry the
    cookie's own when it has one (true in Python's sense), and the time of
    the login plus one hour otherwise. *)
Theorem C6_login_overwrites_token_file
    (old : option text) (w w' : world) (p : json * json) :
  Main.login (set_token_file old w) = (Ret p, w')
  \/ DeleteAllJobs.login (set_token_file old w) = (Ret p, w') ->
  exists resp c rest expiration,
    reply w (List.length (sent w)) = Response resp
    /\ cookies resp = c :: rest
    /\ p = (JStr (name c), JStr (value c))
    /\ (if Main.has_expires c
        then exists e, expires c = Some e /\ fromtimestamp e = Some expiration
        else expiration = today w (readings w) + timedelta_hours 1)
    /\ token_file w'
       = Some (Doc (Spec.credential_record (JStr (name c)) (JStr (value c))
                                           expiration)).
Proof.
  intros [H | H]; unfold_login_in H; exec_all H.
  all: injection H as <- <-; cbn.
  all: do 4 eexists; repeat split; try eassumption.
  all: match goal with E : Main.has_expires _ = _ |- _ => rewrite E end.
  all: eauto.
Qed.

End Session.

(** C4, on an example. *)
Lemma C4_witness :
  exists w',
    Main.authenticate (lib := Fixtures.demo) Fixtures.cached
      = (Ret (Fixtures.cname, Fixtures.tok), w')
    /\ sent w' = [].
Proof.
  destruct (C4_cached_token_no_network (lib := Fixtures.demo)
              Fixtures.cached
              (JObj [ ("cookie_name", JStr "clsession");
                      ("token", JStr "MTcx");
                      ("expires", JStr "5000000000") ])
              Fixtures.cname Fixtures.tok "5000000000" 5000000000)
    as (_ & _ & (w' & Ha & Hs & _) & _);
    try reflexivity.
  exists w'. split; [exact Ha | exact Hs].
Defined.

(** C5 as stated fails: a 200 without a cookie is no network error and no
    status outside 2xx, and [login] raises all the same, in both scripts. *)
Lemma C5_counterexample :
  reply Fixtures.no_cookie 0
    = Response (mkResponse 200 (Doc (JObj [])) [])
  /\ fst (Main.login (lib := Fixtures.demo) Fixtures.no_cookie)
     = Raise (Exception "No cookie was received in the response.")
  /\ fst (DeleteAllJobs.login (lib := Fixtures.demo) Fixtures.no_cookie)
     = Raise (Exception "Login failed: {e}").
Proof. repeat split. Qed.

(** C6, on an example: the cookie expires at 9000 s, and the stale file is
    replaced by the record with that expiry. *)
Lemma C6_witness :
  token_file Fixtures.fresh_login = Some (Garbage "stale")
  /\ token_file (snd (Main.login (lib := Fixtures.demo) Fixtures.fresh_login))
     = Some (Doc (JObj [ ("cookie_name", JStr "clsession");
                         ("token", JStr "MTcx");
                         ("expires", JStr "9000000000") ])).
Proof.
  split; [reflexivity |].
  destruct (C6_login_overwrites_token_file (lib := Fixtures.demo)
              (Some (Garbage "stale")) Fixtures.fresh_login
              (snd (Main.login (lib := Fixtures.demo) Fixtures.fresh_login))
              (Fixtures.cname, Fixtures.tok))
    as (resp & c & rest & expiration & Hr & Hc & _ & He & Hf).
  - left. vm_compute. reflexivity.
  - rewrite Hf. cbn in Hr. injection Hr as <-. cbn in Hc.
    injection Hc as <- <-. cbn in He.
    destruct He as (e & He & Ht). injection He as <-.
    cbn in Ht. injection Ht as <-. reflexivity.
Defined.

(** C5, on an example: a 200 with a session cookie is taken. *)
Lemma C5_witness :
  exists p w', Main.login (lib := Fixtures.demo) Fixtures.fresh_login
               = (Ret p, w').
Proof.
  exact (proj1 (C5_login_outcome (lib := Fixtures.demo) Fixtures.fresh_login)).
Defined.

(** ** The API operations *)

Section Operations.
Context {lib : PyLib}.
Variables (job_id job_run_id cookie_name token : json).

Ltac run_op :=
  unfold Main.poll_run_status, Main.poll_loop, Main.poll_query, Main.run_job,
    Main.create_job, Main.list_jobs, Main.delete_job,
    DeleteAllJobs.list_job_ids, DeleteAllJobs.delete_job;
  unfold_effects; cbn -[Z.eqb Z.leb Z.ltb].

(** C7 (amended). A response of a status the operation does not take is
    turned, where the request is made, into a negative result: [None] from
    [poll_run_status], [create_job], [list_jobs] and main.py's [delete_job],
    [False] from [run_job] and delete_all_jobs.py's [delete_job], the empty
    list from [list_job_ids].  A network error is caught where the request
    is made in delete_all_jobs.py only ([list_job_ids] gives the empty list,
    [delete_job] gives [False]); the operations of main.py do not catch it,
    and the [RequestException] goes up to their caller. *)
Theorem C7_request_failures (fuel : nat) (timeout : Q) (w : world) :
  match reply w (List.length (sent w)) with
  | NetworkError =>
      fst (Main.poll_run_status (S fuel) job_id job_run_id cookie_name token
                                timeout w) = Raise RequestException
      /\ fst (Main.run_job fuel job_id cookie_name token w)
         = Raise RequestException
      /\ (config_toml w <> None ->
          fst (Main.create_job cookie_name token w) = Raise RequestException)
      /\ fst (Main.list_jobs cookie_name token w) = Raise RequestException
      /\ fst (Main.delete_job cookie_name token job_id w)
         = Raise RequestException
      /\ fst (DeleteAllJobs.list_job_ids cookie_name token w) = Ret []
      /\ fst (DeleteAllJobs.delete_job cookie_name token job_id w)
         = Ret false
  | Response resp =>
      (status_code resp <> 200 ->
       fst (Main.poll_run_status (S fuel) job_id job_run_id cookie_name token
                                 timeout w) = Ret None
       /\ fst (Main.list_jobs cookie_name token w) = Ret tt)
      /\ (status_code resp <> 200 -> status_code resp <> 201 ->
          fst (Main.run_job fuel job_id cookie_name token w) = Ret false
          /\ fst (Main.create_job cookie_name token w) = Ret JNull)
      /\ fst (Main.delete_job cookie_name token job_id w) = Ret tt
      /\ (400 <= status_code resp < 600 ->
          fst (DeleteAllJobs.list_job_ids cookie_name token w) = Ret [])
      /\ (status_code resp <> 200 -> status_code resp <> 204 ->
          fst (DeleteAllJobs.delete_job cookie_name token job_id w)
          = Ret false)
  end.
Proof.
  destruct (reply w (List.length (sent w))) as [|resp] eqn:Hreply.
  - repeat split; try intros Hc; run_op; rewrite ?Hreply; try reflexivity.
    destruct (config_toml w); [| contradiction]. cbn. now rewrite Hreply.
  - split; [intros H | split; [intros H H0 | split; [ | split;
      [intros [H1 H2] | intros H H0]]]].
    + apply Z.eqb_neq in H.
      split; run_op; now rewrite Hreply, H.
    + apply Z.eqb_neq in H, H0. split; run_op.
      * now rewrite Hreply, H, H0.
      * destruct (config_toml w); cbn -[Z.eqb]; [| reflexivity].
        now rewrite Hreply, H, H0.
    + run_op. now rewrite Hreply.
    + run_op. rewrite Hreply.
      apply Z.leb_le in H1. apply Z.ltb_lt in H2. now rewrite H1, H2.
    + apply Z.eqb_neq in H, H0. run_op. now rewrite Hreply, H, H0.
Qed.

(** C8. Whatever the job id, and whatever status the server answers the
    DELETE with (a 404 for a job it does not know, say), [delete_job]
    returns: [None] in main.py, and in delete_all_jobs.py [True] for a 200
    or a 204 and [False] for any other status. *)
Theorem C8_delete_job_returns (w : world) (resp : response) :
  reply w (List.length (sent w)) = Response resp ->
  (exists w', Main.delete_job cookie_name token job_id w = (Ret tt, w'))
  /\ (exists w',
         DeleteAllJobs.delete_job cookie_name token job_id w
         = (Ret ((status_code resp =? 200) || (status_code resp =? 204)), w')).
Proof.
  intros Hreply. split.
  - run_op. rewrite Hreply. eexists; reflexivity.
  - run_op. rewrite Hreply.
    destruct ((status_code resp =? 200) || (status_code resp =? 204));
      eexists; reflexivity.
Qed.

End Operations.

(** C7, on an example: a 500 gives [None] from the poller. *)
Lemma C7_witness :
  fst (Main.poll_run_status (lib := Fixtures.demo) 1 Fixtures.job
         Fixtures.run_id Fixtures.cname Fixtures.tok (60 # 1) Fixtures.broken)
  = Ret None.
Proof.
  apply (C7_request_failures (lib := Fixtures.demo) Fixtures.job
           Fixtures.run_id Fixtures.cname Fixtures.tok 0 (60 # 1)
           Fixtures.broken).
  discriminate.
Defined.

(** C7 as stated fails: with no connection, main.py's [delete_job] lets the
    [RequestException] go up to its caller. *)
Lemma C7_counterexample :
  reply Fixtures.offline 0 = NetworkError
  /\ fst (Main.delete_job Fixtures.cname Fixtures.tok Fixtures.job
                          Fixtures.offline)
     = Raise RequestException.
Proof. split; reflexivity. Qed.

(** C8, on an example: deleting a job the server does not know. *)
Lemma C8_witness :
  (exists w',
      Main.delete_job Fixtures.cname Fixtures.tok Fixtures.job
                      Fixtures.missing = (Ret tt, w'))
  /\ (exists w',
         DeleteAllJobs.delete_job Fixtures.cname Fixtures.tok Fixtures.job
                                  Fixtures.missing = (Ret false, w')).
Proof.
  exact (C8_delete_job_returns Fixtures.job Fixtures.cname Fixtures.tok
           Fixtures.missing
           (mkResponse 404 (Garbage "Internal Server Error") []) eq_refl).
Defined.

(** ** The scripts *)

Section Scripts.
Context {lib : PyLib}.

(** C9. Whenever [main] returns, main.py exits with code 1: the [STATUS]
    that lines 277 and 280 assign is [main]'s parameter, so the [STATUS] of
    the module is still [False] at line 290, whatever [run_job] returned. *)
Theorem C9_exit_code_is_one (fuel : nat) (w w0 w1 : world) :
  Main.module_init w = (Ret tt, w0) ->
  Main.main fuel false w0 = (Ret tt, w1) ->
  Main.script fuel w
  = (Raise (SystemExit 1),
     set_stdout ("Exiting with status: False" :: stdout w1) w1)
  /\ exit_code (fst (Main.script fuel w)) = Some 1.
Proof.
  intros Hinit Hmain.
  assert (H : Main.script fuel w
              = (Raise (SystemExit 1),
                 set_stdout ("Exiting with status: False" :: stdout w1) w1)).
  { unfold Main.script, bind. now rewrite Hinit, Hmain. }
  split; [exact H | now rewrite H].
Qed.

(** C10. In delete_all_jobs.py, once the session is there, a listing that
    fails (no connection, an error status, a body that is no JSON) makes
    [list_job_ids] return the empty list, and on the empty list, from a
    failure or from a server without jobs alike, [main] prints the same line
    and exits with code 0. *)
Theorem C10_listing_failure_exits_zero
    (w w1 : world) (cookie_name token : json) :
  DeleteAllJobs.authenticate
    (snd (print "Starting job deletion process..." w))
  = (Ret (cookie_name, token), w1) ->
  Spec.listing_fails (reply w1 (List.length (sent w1))) ->
  (exists w2,
      DeleteAllJobs.list_job_ids cookie_name token w1 = (Ret [], w2)
      /\ exit_code (fst (DeleteAllJobs.main w)) = Some 0)
  /\ (forall w2,
         DeleteAllJobs.list_job_ids cookie_name token w1 = (Ret [], w2) ->
         DeleteAllJobs.main w
         = (Raise (SystemExit 0),
            snd (print "No jobs found or error listing jobs. Exiting." w2))).
Proof.
  intros Hauth Hfail.
  assert (Hmain : forall w2,
             DeleteAllJobs.list_job_ids cookie_name token w1 = (Ret [], w2) ->
             DeleteAllJobs.main w
             = (Raise (SystemExit 0),
                snd (print "No jobs found or error listing jobs. Exiting."
                           w2))).
  { intros w2 Hlist. unfold DeleteAllJobs.main.
    unfold bind at 1. unfold print at 1.
    unfold bind at 1. cbn [snd print] in Hauth. rewrite Hauth.
    unfold bind at 1. rewrite Hlist. reflexivity. }
  split; [| exact Hmain].
  assert (Hlist : exists w2,
             DeleteAllJobs.list_job_ids cookie_name token w1 = (Ret [], w2)).
  { unfold DeleteAllJobs.list_job_ids. unfold_effects. cbn -[Z.leb Z.ltb].
    destruct (reply w1 (List.length (sent w1))) as [|resp];
      cbn -[Z.leb Z.ltb].
    - eexists; reflexivity.
    - destruct ((400 <=? status_code resp) && (status_code resp <? 600))
        eqn:Hst; cbn; [eexists; reflexivity |].
      destruct Hfail as [[H1 H2] | [s Hs]].
      + apply Z.leb_le in H1. apply Z.ltb_lt in H2.
        rewrite H1, H2 in Hst. discriminate Hst.
      + rewrite Hs. cbn. eexists; reflexivity. }
  destruct Hlist as [w2 Hlist]. exists w2. split; [exact Hlist |].
  now rewrite (Hmain w2 Hlist).
Qed.

End Scripts.

(** C9, on an example: the job ran and completed, [run_job] said so, and the
    script exits with code 1. *)
Lemma C9_witness :
  In "Job {job_id} executed successfully!"
     (stdout (snd (Main.script (lib := Fixtures.demo) 3 Fixtures.happy)))
  /\ exit_code (fst (Main.script (lib := Fixtures.demo) 3 Fixtures.happy))
     = Some 1.
Proof.
  split.
  - vm_compute. tauto.
  - apply (C9_exit_code_is_one (lib := Fixtures.demo) 3 Fixtures.happy
             Fixtures.happy
             (snd (Main.main (lib := Fixtures.demo) 3 false Fixtures.happy))).
    + reflexivity.
    + vm_compute. reflexivity.
Defined.

(** C10, on an example: a saved token and no connection. *)
Lemma C10_witness :
  exit_code (fst (DeleteAllJobs.main (lib := Fixtures.demo) Fixtures.cached))
  = Some 0.
Proof.
  destruct (C10_listing_failure_exits_zero (lib := Fixtures.demo)
              Fixtures.cached
              (snd (DeleteAllJobs.authenticate (lib := Fixtures.demo)
                      (snd (print "Starting job deletion process..."
                                  Fixtures.cached))))
              Fixtures.cname Fixtures.tok)
    as [(w2 & _ & H) _].
  - vm_compute. reflexivity.
  - exact I.
  - exact H.
Defined.

(* ================================================================== *)
(** * Properties of whole runs *)
(* ================================================================== *)

(** ** Which computations can end in [sys.exit] *)

Section Quiet.
Context {lib : PyLib}.

Lemma quiet_ret {A} (a : A) : Extra.quiet (ret a).
Proof. intros w o w' H. injection H as <- <-. exact I. Qed.

Lemma quiet_raise {A} (e : exn) :
  is_Exception e = true -> Extra.quiet (@raise A e).
Proof.
  intros He w o w' H. injection H as <- <-.
  destruct e; try exact I; discriminate He.
Qed.

Lemma quiet_bind {A B} (c : M A) (k : A -> M B) :
  Extra.quiet c -> (forall a, Extra.quiet (k a)) -> Extra.quiet (bind c k).
Proof.
  intros Hc Hk w o w' H. unfold bind in H.
  destruct (c w) as [[a | e |] w1] eqn:E.
  - exact (Hk a _ _ _ H).
  - injection H as <- <-. exact (Hc _ _ _ E).
  - injection H as <- <-. exact I.
Qed.

Lemma quiet_lift {A} (r : result A) :
  match r with Throw e => is_Exception e = true | Ok _ => True end ->
  Extra.quiet (lift r).
Proof.
  destruct r; cbn [lift]; intros H; [apply quiet_ret | now apply quiet_raise].
Qed.

Lemma get_no_exit (d : json) (k : string) (default : json) :
  match get d k default with
  | Throw e => is_Exception e = true
  | Ok _ => True
  end.
Proof. destruct d; cbn; auto. Qed.

Lemma iter_no_exit (v : json) :
  match iter v with Throw e => is_Exception e = true | Ok _ => True end.
Proof. destruct v; cbn; auto. Qed.

Lemma any_no_exit (p : json -> bool) (v : json) :
  match any p v with Throw e => is_Exception e = true | Ok _ => True end.
Proof. destruct v; cbn; auto. Qed.

Lemma all_no_exit (p : json -> bool) (v : json) :
  match all p v with Throw e => is_Exception e = true | Ok _ => True end.
Proof. destruct v; cbn; auto. Qed.

Lemma str_lower_no_exit (v : json) :
  match str_lower v with Throw e => is_Exception e = true | Ok _ => True end.
Proof. destruct v; cbn; auto. Qed.

Lemma find_run_no_exit (runs : list json) (job_run_id : json) :
  match Main.find_run runs job_run_id with
  | Throw e => is_Exception e = true
  | Ok _ => True
  end.
Proof.
  induction runs as [|r rest IH]; cbn; auto.
  destruct r; cbn; auto.
  destruct (py_str _ =? py_str _)%string; auto.
Qed.

Lemma collect_ids_no_exit (jobs_data : list json) :
  match DeleteAllJobs.collect_ids jobs_data with
  | Throw e => is_Exception e = true
  | Ok _ => True
  end.
Proof.
  induction jobs_data as [|job rest IH]; cbn; auto.
  destruct job; cbn; auto.
  destruct (DeleteAllJobs.collect_ids rest); auto.
Qed.

Lemma quiet_print (line : string) : Extra.quiet (print line).
Proof. intros w o w' H. injection H as <- <-. exact I. Qed.

Lemma quiet_send (r : request) : Extra.quiet (requests_send r).
Proof.
  intros w o w' H. unfold requests_send in H.
  destruct (reply w _); injection H as <- <-; exact I.
Qed.

Lemma quiet_raise_for_status (r : response) :
  Extra.quiet (raise_for_status r).
Proof.
  unfold raise_for_status. destruct (_ && _);
    [now apply quiet_raise | apply quiet_ret].
Qed.

Lemma quiet_json_load (t : text) : Extra.quiet (json_load t).
Proof. destruct t; [apply quiet_ret | now apply quiet_raise]. Qed.

Lemma quiet_time_time : Extra.quiet time_time.
Proof. intros w o w' H. injection H as <- <-. exact I. Qed.

Lemma quiet_datetime_now : Extra.quiet datetime_now.
Proof. intros w o w' H. injection H as <- <-. exact I. Qed.

Lemma quiet_time_sleep : Extra.quiet time_sleep.
Proof. intros w o w' H. injection H as <- <-. exact I. Qed.

Lemma quiet_os_getenv (k : string) : Extra.quiet (os_getenv k).
Proof. intros w o w' H. injection H as <- <-. exact I. Qed.

Lemma quiet_dump_token_file (data : json) :
  Extra.quiet (dump_token_file data).
Proof. intros w o w' H. injection H as <- <-. exact I. Qed.

Lemma quiet_open_token_file : Extra.quiet Main.open_token_file.
Proof. intros w o w' H. injection H as <- <-. exact I. Qed.

Lemma quiet_read_config : Extra.quiet Main.read_config.
Proof. intros w o w' H. injection H as <- <-. exact I. Qed.

Lemma quiet_fromisoformat (v : json) :
  Extra.quiet (Main.datetime_fromisoformat v).
Proof.
  destruct v; cbn; try now apply quiet_raise.
  destruct (fromisoformat s); [apply quiet_ret | now apply quiet_raise].
Qed.

Lemma quiet_fromtimestamp (t : option Z) :
  Extra.quiet (Main.datetime_fromtimestamp t).
Proof.
  destruct t as [e|]; cbn; try now apply quiet_raise.
  destruct (fromtimestamp e); [apply quiet_ret | now apply quiet_raise].
Qed.

Lemma quiet_try_except {A} (c : M A) (handler : exn -> option (M A)) :
  Extra.quiet c ->
  (forall e h, handler e = Some h -> Extra.quiet h) ->
  Extra.quiet (try_except c handler).
Proof.
  intros Hc Hh w o w' H. unfold try_except in H.
  destruct (c w) as [[a | e |] w1] eqn:E.
  - injection H as <- <-. exact I.
  - destruct (handler e) as [h|] eqn:Eh.
    + exact (Hh e h Eh _ _ _ H).
    + injection H as <- <-. exact (Hc _ _ _ E).
  - injection H as <- <-. exact I.
Qed.

Lemma quiet_try_finally {L A} (c : M L) (rest : L -> M A)
    (final : option L -> M unit) :
  Extra.quiet c -> (forall x, Extra.quiet (rest x)) ->
  (forall x, Extra.quiet (final x)) ->
  Extra.quiet (try_finally c rest final).
Proof.
  intros Hc Hr Hf w o w' H. unfold try_finally in H.
  destruct (c w) as [[x | e |] w1] eqn:E.
  - destruct (rest x w1) as [[a | e |] w2] eqn:Er.
    + destruct (final (Some x) w2) as [[[] | e |] w3] eqn:Ef;
        injection H as <- <-; try exact I.
      exact (Hf _ _ _ _ Ef).
    + destruct (final (Some x) w2) as [[[] | e' |] w3] eqn:Ef;
        injection H as <- <-; try exact I.
      * exact (Hr _ _ _ _ Er).
      * exact (Hf _ _ _ _ Ef).
    + injection H as <- <-. exact I.
  - destruct (final None w1) as [[[] | e' |] w2] eqn:Ef;
      injection H as <- <-; try exact I.
    + exact (Hc _ _ _ E).
    + exact (Hf _ _ _ _ Ef).
  - injection H as <- <-. exact I.
Qed.

End Quiet.

(** The computations and expressions that are quiet by themselves. *)
Ltac quiet_base :=
  first
    [ apply quiet_ret | apply quiet_print | apply quiet_send
    | apply quiet_raise_for_status | apply quiet_json_load
    | apply quiet_time_time | apply quiet_datetime_now
    | apply quiet_time_sleep | apply quiet_os_getenv
    | apply quiet_dump_token_file | apply quiet_open_token_file
    | apply quiet_read_config | apply quiet_fromisoformat
    | apply quiet_fromtimestamp
    | apply get_no_exit | apply iter_no_exit | apply any_no_exit
    | apply all_no_exit | apply str_lower_no_exit | apply find_run_no_exit
    | apply collect_ids_no_exit ].

(** One step of a proof that a computation is quiet: take the computation
    apart along its binds, branches and handlers. *)
Ltac quiet_step :=
  lazymatch goal with
  | H : (if ?b then _ else _) = Some ?h |- Extra.quiet ?h =>
      destruct b; [injection H as H; subst h | try discriminate H]
  | H : Some _ = Some ?h |- Extra.quiet ?h => injection H as H; subst h
  | |- Extra.quiet (bind _ _) => apply quiet_bind; [| intros ?]
  | |- Extra.quiet (lift _) => apply quiet_lift; quiet_base
  | |- Extra.quiet (raise _) => apply quiet_raise; reflexivity
  | |- Extra.quiet (sys_exit _) => fail
  | |- Extra.quiet (try_except _ _) =>
      apply quiet_try_except; [| intros ? ? ?]
  | |- Extra.quiet (try_finally _ _ _) =>
      apply quiet_try_finally; [| intros ? | intros ?]
  | |- Extra.quiet (if ?b then _ else _) => destruct b
  | |- Extra.quiet (match ?x with _ => _ end) => destruct x
  | |- Extra.quiet (let _ := _ in _) => cbv zeta
  | |- Extra.quiet _ => quiet_base
  end.

Ltac quiet_tac := repeat quiet_step.

Section QuietFunctions.
Context {lib : PyLib}.

Lemma quiet_module_init : Extra.quiet Main.module_init.
Proof. unfold Main.module_init. quiet_tac. Qed.

Lemma quiet_get_saved_token : Extra.quiet Main.get_saved_token.
Proof. unfold Main.get_saved_token. quiet_tac. Qed.

Lemma quiet_save_token (cookie_name token : json) (d : datetime) :
  Extra.quiet (Main.save_token cookie_name token d).
Proof. unfold Main.save_token. quiet_tac. Qed.

Lemma quiet_login : Extra.quiet Main.login.
Proof.
  unfold Main.login. quiet_tac. all: try apply quiet_save_token.
Qed.

Lemma quiet_inspect_run (run : json) : Extra.quiet (Main.inspect_run run).
Proof. unfold Main.inspect_run. quiet_tac. Qed.

Lemma quiet_poll_query (job_id job_run_id cookie_name token : json) :
  Extra.quiet (Main.poll_query job_id job_run_id cookie_name token).
Proof. unfold Main.poll_query. quiet_tac. all: apply quiet_inspect_run. Qed.

Lemma quiet_poll_loop (job_id job_run_id cookie_name token : json)
    (timeout start_time : Q) (fuel : nat) :
  Extra.quiet (Main.poll_loop fuel job_id job_run_id cookie_name token
                              timeout start_time).
Proof.
  induction fuel as [|fuel IH]; cbn [Main.poll_loop].
  - intros w o w' H. injection H as <- <-. exact I.
  - apply quiet_bind; [apply quiet_poll_query |].
    intros [r|]; quiet_tac. exact IH.
Qed.

Lemma quiet_poll_run_status (job_id job_run_id cookie_name token : json)
    (timeout : Q) (fuel : nat) :
  Extra.quiet (Main.poll_run_status fuel job_id job_run_id cookie_name token
                                    timeout).
Proof. unfold Main.poll_run_status. quiet_tac. apply quiet_poll_loop. Qed.

Lemma quiet_run_job (job_id cookie_name token : json) (fuel : nat) :
  Extra.quiet (Main.run_job fuel job_id cookie_name token).
Proof.
  unfold Main.run_job. quiet_tac. all: apply quiet_poll_run_status.
Qed.

Lemma quiet_create_job (cookie_name token : json) :
  Extra.quiet (Main.create_job cookie_name token).
Proof. unfold Main.create_job. quiet_tac. Qed.

Lemma quiet_delete_job (cookie_name token job_id : json) :
  Extra.quiet (Main.delete_job cookie_name token job_id).
Proof. unfold Main.delete_job. quiet_tac. Qed.

End QuietFunctions.

(** ** The exit code of main.py *)

Section Calm.
Context {lib : PyLib}.

Lemma quiet_calm {A} (c : M A) : Extra.quiet c -> Extra.calm c.
Proof.
  intros Hc w o w' H. specialize (Hc w o w' H).
  destruct o as [a | [] |]; try exact I. contradiction.
Qed.

Lemma calm_bind {A B} (c : M A) (k : A -> M B) :
  Extra.calm c -> (forall a, Extra.calm (k a)) -> Extra.calm (bind c k).
Proof.
  intros Hc Hk w o w' H. unfold bind in H.
  destruct (c w) as [[a | e |] w1] eqn:E.
  - exact (Hk a _ _ _ H).
  - injection H as <- <-. exact (Hc _ _ _ E).
  - injection H as <- <-. exact I.
Qed.

Lemma calm_try_except {A} (c : M A) (handler : exn -> option (M A)) :
  Extra.calm c ->
  (forall e h, handler e = Some h -> Extra.calm h) ->
  Extra.calm (try_except c handler).
Proof.
  intros Hc Hh w o w' H. unfold try_except in H.
  destruct (c w) as [[a | e |] w1] eqn:E.
  - injection H as <- <-. exact I.
  - destruct (handler e) as [h|] eqn:Eh.
    + exact (Hh e h Eh _ _ _ H).
    + injection H as <- <-. exact (Hc _ _ _ E).
  - injection H as <- <-. exact I.
Qed.

Lemma calm_exit_one {A} : Extra.calm (@sys_exit A 1).
Proof. intros w o w' H. injection H as <- <-. reflexivity. Qed.

Lemma calm_print_exit_one {A} (line : string) :
  Extra.calm (bind (print line) (fun _ => @sys_exit A 1)).
Proof. apply calm_bind; [apply quiet_calm, quiet_print | intros ?; apply calm_exit_one]. Qed.

(** The session step of main.py ends in [sys.exit(1)] or not in
    [sys.exit] at all. *)
Lemma calm_authenticate : Extra.calm Main.authenticate.
Proof.
  unfold Main.authenticate.
  apply calm_bind; [apply quiet_calm, quiet_get_saved_token |].
  intros [cookie_name token].
  apply calm_bind.
  - destruct (truthy token); [apply quiet_calm, quiet_ret |].
    apply calm_try_except; [apply quiet_calm, quiet_login |].
    intros e h He. destruct (is_Exception e); [| discriminate He].
    injection He as Hh. rewrite <- Hh. apply calm_print_exit_one.
  - intros [cookie_name' token'].
    destruct (negb (truthy token') || negb (truthy cookie_name'));
      [apply calm_print_exit_one | apply quiet_calm, quiet_ret].
Qed.

Lemma calm_main (fuel : nat) (STATUS : bool) :
  Extra.calm (Main.main fuel STATUS).
Proof.
  unfold Main.main.
  apply calm_bind; [apply quiet_calm; quiet_tac |].
  intros ?. apply calm_bind; [apply calm_authenticate |].
  intros [cookie_name token]. apply quiet_calm.
  quiet_tac.
  all: first [apply quiet_create_job | apply quiet_run_job
             | apply quiet_delete_job].
Qed.

(** X1. Every run of main.py that ends exits with code 1, whatever the server
    answered and whatever [run_job] returned: a missing setting and an
    uncaught exception end the process with 1, the session step exits with
    [sys.exit(1)], and line 290 tests the [STATUS] of the module, which is
    [False] throughout. *)
Theorem main_py_never_exits_zero
    (fuel : nat) (w w' : world) (o : outcome unit) :
  Main.script fuel w = (o, w') ->
  o <> OutOfFuel ->
  exit_code o = Some 1.
Proof.
  intros H Hfuel. unfold Main.script, bind in H.
  destruct (Main.module_init w) as [[[] | e |] w0] eqn:Einit.
  - destruct (Main.main fuel false w0) as [[[] | e |] w1] eqn:Emain.
    + cbn in H. injection H as <- <-. reflexivity.
    + injection H as <- <-. apply calm_main in Emain.
      destruct e; try reflexivity. cbn in Emain. now subst.
    + injection H as <- <-. now contradiction Hfuel.
  - injection H as <- <-. apply quiet_module_init in Einit.
    destruct e; try reflexivity. contradiction.
  - injection H as <- <-. now contradiction Hfuel.
Qed.

End Calm.

(** On an example: without a connection the login fails, and the script
    exits with 1. *)
Lemma main_py_never_exits_zero_witness :
  exit_code (fst (Main.script (lib := Fixtures.demo) 3 Fixtures.offline))
  = Some 1.
Proof.
  apply (main_py_never_exits_zero (lib := Fixtures.demo) 3 Fixtures.offline
           (snd (Main.script (lib := Fixtures.demo) 3 Fixtures.offline))).
  - apply surjective_pairing.
  - vm_compute. discriminate.
Defined.

(** ** The polling loop, pass after pass *)

Section PollingPasses.
Context {lib : PyLib}.
Variables (job_id job_run_id cookie_name token : json).

Let listing : request :=
  mkRequest GET (Runs job_id) (Some (cookie_name, token)) None.

#[local] Opaque Main.inspect_run.

Lemma printed_naps (w w' : world) : Spec.printed w w' -> naps w' = naps w.
Proof. intros [lines ->]. reflexivity. Qed.

Lemma poll_query_naps (w w' : world) (o : outcome Main.step) :
  Main.poll_query job_id job_run_id cookie_name token w = (o, w') ->
  naps w' = naps w.
Proof.
  intros H. unfold Main.poll_query in H. exec_all H.
  all: try (injection H as <- <-; reflexivity).
  all: apply inspect_run_printed, printed_naps in H; exact H.
Qed.

(** [find_run] is a search for the first entry whose id, as a string, is
    the run id as a string. *)
Lemma find_run_first_match (runs : list json) :
  forallb Extra.is_dict runs = true ->
  Main.find_run runs job_run_id
  = Ok (match find (Extra.matches job_run_id) runs with
        | Some r => r
        | None => JNull
        end).
Proof.
  induction runs as [|r rest IH]; cbn; [reflexivity |].
  destruct r; cbn; try discriminate. intros Hrest.
  unfold Extra.matches at 1. cbn [Extra.id_of].
  destruct (py_str _ =? py_str _)%string; [reflexivity | now apply IH].
Qed.

(** X4. In a listing of run records, [poll_run_status] looks at the first
    record whose id matches and at no other; when no record matches, the
    pass prints that the run was not found and falls through to the
    timeout test, so the polling goes on. *)
Theorem poll_query_first_match
    (w : world) (resp : response) (doc : json) (entries : list json) :
  reply w (List.length (sent w)) = Response resp ->
  status_code resp = 200 ->
  body resp = Doc doc ->
  get doc "data" (JList []) = Ok (JList entries) ->
  forallb Extra.is_dict entries = true ->
  Main.poll_query job_id job_run_id cookie_name token w
  = match find (Extra.matches job_run_id) entries with
    | Some run =>
        if truthy run
        then Main.inspect_run run (set_sent (listing :: sent w) w)
        else (Ret Main.Continue,
              set_stdout ("Job run not found in the listing." :: stdout w)
                         (set_sent (listing :: sent w) w))
    | None =>
        (Ret Main.Continue,
         set_stdout ("Job run not found in the listing." :: stdout w)
                    (set_sent (listing :: sent w) w))
    end.
Proof.
  intros Hreply Hstatus Hbody Hdata Hdicts.
  unfold Main.poll_query, bind, requests_send. rewrite Hreply, Hstatus.
  cbn [Z.eqb Pos.eqb]. rewrite Hbody. cbn [json_load ret].
  rewrite Hdata. cbn [lift ret iter].
  rewrite (find_run_first_match _ Hdicts). cbn [lift ret].
  destruct (find (Extra.matches job_run_id) entries) as [run|];
    [| reflexivity].
  destruct (truthy run); reflexivity.
Qed.

Lemma repeat_app_cons {A} (a : A) (n : nat) (l : list A) :
  (repeat a n ++ a :: l)%list = a :: (repeat a n ++ l)%list.
Proof. induction n as [|n IH]; cbn; [reflexivity | now rewrite IH]. Qed.

(** The passes of the loop: each one sends the same GET, and between two
    passes there is one [time.sleep(2)]; there is none before the first
    query and none after the last. *)
Lemma poll_loop_passes (timeout start_time : Q) (fuel : nat) :
  forall (w w' : world) (o : outcome (option Main.run_status)),
    Main.poll_loop fuel job_id job_run_id cookie_name token
                   timeout start_time w = (o, w') ->
    o <> OutOfFuel ->
    exists n, sent w' = (repeat listing (S n) ++ sent w)%list
              /\ naps w' = (naps w + n)%nat.
Proof.
  induction fuel as [|fuel IH]; intros w w' o H Hfuel.
  - injection H as <- <-. now contradiction Hfuel.
  - cbn [Main.poll_loop] in H. unfold bind at 1 in H.
    destruct (Main.poll_query _ _ _ _ w) as [o1 w1] eqn:Hq.
    pose proof (poll_query_naps _ _ _ Hq) as Hnaps.
    apply poll_query_spec in Hq.
    destruct Hq as (_ & _ & _ & Hsent & Ho).
    destruct o1 as [[r1|]| |]; try contradiction.
    + injection H as <- <-. exists 0%nat. cbn. split; [exact Hsent | lia].
    + unfold bind, time_time in H. cbn in H.
      destruct (Qle_bool _ timeout); cbn in H.
      * apply IH in H; [| exact Hfuel]. cbn in H.
        destruct H as (n & Hs & Hn). exists (S n). split.
        -- rewrite Hs, Hsent.
           cbn [repeat app]. f_equal. apply repeat_app_cons.
        -- lia.
      * injection H as <- <-. exists 0%nat. cbn. split; [exact Hsent | lia].
    + injection H as <- <-. exists 0%nat. cbn. split; [exact Hsent | lia].
Qed.

(** X3. Whenever [poll_run_status] ends, by a [return] or by an exception, it
    has sent the listing GET some n + 1 times and nothing else, and has
    slept n times. *)
Theorem poll_run_status_passes
    (timeout : Q) (fuel : nat) (w w' : world)
    (o : outcome (option Main.run_status)) :
  Main.poll_run_status fuel job_id job_run_id cookie_name token timeout w
    = (o, w') ->
  o <> OutOfFuel ->
  exists n, sent w' = (repeat listing (S n) ++ sent w)%list
            /\ naps w' = (naps w + n)%nat.
Proof.
  intros H Hfuel. unfold Main.poll_run_status, bind, time_time in H.
  apply poll_loop_passes in H; [| exact Hfuel]. exact H.
Qed.

Lemma poll_loop_terminates (timeout start_time : Q) (k : nat) :
  forall (fuel : nat) (w : world),
    (k < fuel)%nat ->
    (timeout < wall w (readings w + k) - start_time)%Q ->
    exists o w',
      Main.poll_loop fuel job_id job_run_id cookie_name token
                     timeout start_time w = (o, w')
      /\ o <> OutOfFuel /\ (naps w' <= naps w + k)%nat.
Proof.
  induction k as [|k IH]; intros fuel w Hk Hlate.
  all: destruct fuel as [|fuel]; [lia |].
  all: cbn [Main.poll_loop]; unfold bind at 1.
  all: destruct (Main.poll_query _ _ _ _ w) as [o1 w1] eqn:Hq.
  all: pose proof (poll_query_naps _ _ _ Hq) as Hnaps.
  all: apply poll_query_spec in Hq.
  all: destruct Hq as (_ & Hwall & Hread & _ & Ho).
  all: destruct o1 as [[r1|]| |]; try contradiction.
  all: try (eexists; eexists; split; [reflexivity |];
            split; [discriminate | lia]).
  all: unfold bind, time_time; cbn; rewrite Hread, Hwall.
  - rewrite Nat.add_0_r in Hlate.
    destruct (Qle_bool _ timeout) eqn:Hle; cbn.
    + apply Qle_bool_iff in Hle. now apply Qlt_not_le in Hlate.
    + eexists; eexists; split; [reflexivity |].
      split; [discriminate | cbn; lia].
  - destruct (Qle_bool _ timeout) eqn:Hle; cbn.
    + match goal with
      | |- context [Main.poll_loop fuel _ _ _ _ _ _ ?X] =>
          destruct (IH fuel X) as (o & w' & Hloop & Ho' & Hn)
      end.
      * lia.
      * cbn. rewrite ?Hread, ?Hwall.
        replace (readings w + S k)%nat with (S (readings w + k))
          in Hlate by lia.
        exact Hlate.
      * rewrite Hloop. exists o, w'. split; [reflexivity |].
        split; [exact Ho' |]. cbn in Hn. lia.
    + eexists; eexists; split; [reflexivity |].
      split; [discriminate | cbn; lia].
Qed.

(** X2. The timeout bounds the polling: if the clock reading taken at the end
    of the (k+1)-th pass is later than the start by more than the timeout,
    then [poll_run_status] ends within k + 1 passes, after at most k
    sleeps, whatever the server answers. *)
Theorem poll_run_status_terminates
    (timeout : Q) (k fuel : nat) (w : world) :
  (k < fuel)%nat ->
  (timeout < wall w (S (readings w) + k) - wall w (readings w))%Q ->
  exists o w',
    Main.poll_run_status fuel job_id job_run_id cookie_name token timeout w
      = (o, w')
    /\ o <> OutOfFuel /\ (naps w' <= naps w + k)%nat.
Proof.
  intros Hk Hlate. unfold Main.poll_run_status, bind, time_time.
  destruct (poll_loop_terminates timeout (wall w (readings w)) k fuel
              (set_readings (S (readings w)) w) Hk Hlate)
    as (o & w' & Hloop & Ho & Hn).
  rewrite Hloop. exists o, w'. auto.
Qed.

End PollingPasses.

(** On an example: the run is not in the listing, so the pass goes on. *)
Lemma poll_query_first_match_witness :
  fst (Main.poll_query (lib := Fixtures.demo) Fixtures.job Fixtures.run_id
         Fixtures.cname Fixtures.tok Fixtures.slow)
  = Ret Main.Continue.
Proof.
  rewrite (poll_query_first_match (lib := Fixtures.demo) Fixtures.job
             Fixtures.run_id Fixtures.cname Fixtures.tok Fixtures.slow
             (mkResponse 200 (Doc (JObj [("data", JList [])])) [])
             (JObj [("data", JList [])]) []);
    reflexivity.
Defined.

(** On an example: one query, a timeout, no sleep. *)
Lemma poll_run_status_passes_witness :
  List.length
    (sent (snd (Main.poll_run_status (lib := Fixtures.demo) 3 Fixtures.job
                  Fixtures.run_id Fixtures.cname Fixtures.tok (60 # 1)
                  Fixtures.slow)))
  = 1%nat.
Proof.
  destruct (poll_run_status_passes (lib := Fixtures.demo) Fixtures.job
              Fixtures.run_id Fixtures.cname Fixtures.tok (60 # 1) 3
              Fixtures.slow
              (snd (Main.poll_run_status (lib := Fixtures.demo) 3
                      Fixtures.job Fixtures.run_id Fixtures.cname
                      Fixtures.tok (60 # 1) Fixtures.slow))
              (Ret None))
    as (n & Hs & Hn).
  - vm_compute. reflexivity.
  - discriminate.
  - vm_compute in Hn. rewrite Hs.
    assert (n = 0%nat) as -> by (destruct n; [reflexivity | discriminate Hn]).
    reflexivity.
Defined.

(** On an example: the clock is past the timeout at the first test. *)
Lemma poll_run_status_terminates_witness :
  fst (Main.poll_run_status (lib := Fixtures.demo) 1 Fixtures.job
         Fixtures.run_id Fixtures.cname Fixtures.tok (60 # 1) Fixtures.slow)
  <> OutOfFuel.
Proof.
  destruct (poll_run_status_terminates (lib := Fixtures.demo) Fixtures.job
              Fixtures.run_id Fixtures.cname Fixtures.tok (60 # 1) 0 1
              Fixtures.slow)
    as (o & w' & H & Ho & _).
  - lia.
  - reflexivity.
  - rewrite H. exact Ho.
Defined.

#[local] Transparent Main.inspect_run.

(** ** The job of main.py: created, run, deleted *)

Section JobLifecycle.
Context {lib : PyLib}.

#[local] Opaque Main.poll_loop.

(** X6. [create_job] returns [None] or a job id that is true; it sends at most
    one request, the POST of config.toml to the jobs endpoint, and none when
    config.toml cannot be read; it leaves the token file alone. *)
Theorem create_job_result
    (cookie_name token : json) (w w' : world) (o : outcome json) :
  Main.create_job cookie_name token w = (o, w') ->
  (forall job_id, o = Ret job_id -> job_id = JNull \/ truthy job_id = true)
  /\ (config_toml w = None -> o = Ret JNull /\ sent w' = sent w)
  /\ (forall toml_spec,
         config_toml w = Some toml_spec ->
         sent w'
         = mkRequest POST Jobs (Some (cookie_name, token))
                     (Some (JObj [("toml", JStr toml_spec)])) :: sent w)
  /\ token_file w' = token_file w.
Proof.
  intros H. unfold Main.create_job in H. exec_all H.
  all: injection H as <- <-; cbn.
  all: repeat split; try discriminate; try reflexivity.
  all: try (intros the_id Hid; injection Hid as <-; auto).
  all: try (intros the_toml Ht; injection Ht as <-; reflexivity).
Qed.

(** What [run_job] sends: the POST that starts the run, then GETs of the
    run listing. *)
Lemma run_job_trace
    (fuel : nat) (job_id cookie_name token : json) (w w' : world)
    (o : outcome bool) :
  Main.run_job fuel job_id cookie_name token w = (o, w') ->
  o <> OutOfFuel ->
  exists n,
    sent w'
    = (repeat (mkRequest GET (Runs job_id) (Some (cookie_name, token)) None) n
       ++ mkRequest POST (Runs job_id) (Some (cookie_name, token))
                    (Some (JObj [])) :: sent w)%list
    /\ naps w' = (naps w + pred n)%nat
    /\ (o = Ret true -> (0 < n)%nat).
Proof.
  intros H Hfuel. unfold Main.run_job in H. exec_all H.
  all: try (injection H as <- <-; exists 0%nat; cbn;
            repeat split; try lia; discriminate).
  all: try (injection H as <- <-; now contradiction Hfuel).
  all: match goal with
       | E : Main.poll_loop _ _ _ _ _ _ _ _ = _ |- _ =>
           apply poll_loop_passes in E; [| discriminate];
           destruct E as (n & Hs & Hn); cbn in Hs, Hn
       end.
  all: injection H as <- <-; exists (S n); cbn.
  all: rewrite Hs, Hn; repeat split; lia.
Qed.

(** X7. [run_job] sends the POST that starts the run and after it only GETs of
    the run listing, with one sleep between two of them, and it returns
    [True] only after at least one such GET.  When the answer to the POST
    carries no run id (none, [null] or an empty one), it returns [False]
    after the POST alone: there is no polling. *)
Theorem run_job_requests
    (fuel : nat) (job_id cookie_name token : json) (w w' : world)
    (o : outcome bool) :
  Main.run_job fuel job_id cookie_name token w = (o, w') ->
  o <> OutOfFuel ->
  (exists n,
      sent w'
      = (repeat (mkRequest GET (Runs job_id) (Some (cookie_name, token)) None)
                n
         ++ mkRequest POST (Runs job_id) (Some (cookie_name, token))
                      (Some (JObj [])) :: sent w)%list
      /\ naps w' = (naps w + pred n)%nat
      /\ (o = Ret true -> (0 < n)%nat))
  /\ (forall resp doc data job_run_id,
         reply w (List.length (sent w)) = Response resp ->
         body resp = Doc doc ->
         get doc "data" (JObj []) = Ok data ->
         get data "id" JNull = Ok job_run_id ->
         truthy job_run_id = false ->
         (status_code resp =? 200) || (status_code resp =? 201) = true ->
         o = Ret false
         /\ sent w'
            = mkRequest POST (Runs job_id) (Some (cookie_name, token))
                        (Some (JObj [])) :: sent w).
Proof.
  intros H Hfuel. split; [exact (run_job_trace _ _ _ _ _ _ _ H Hfuel) |].
  intros resp doc data job_run_id Hreply Hbody Hdata Hid Hfalse Hstatus.
  unfold Main.run_job, bind, requests_send in H.
  rewrite Hreply, Hstatus, Hbody in H. cbn [json_load ret] in H.
  rewrite Hdata in H. cbn [lift ret] in H. rewrite Hid in H.
  cbn [lift ret] in H. rewrite Hfalse in H. cbn in H.
  injection H as <- <-. split; reflexivity.
Qed.

(** The connectivity check of [main] changes nothing but the list of
    requests sent: no connection and an error status are passed over. *)
Lemma check_ignored (w : world) :
  try_except
    (response <- requests_send (mkRequest GET Base None None) ;;
     raise_for_status response)
    (fun e => if is_RequestException e then Some (ret tt) else None) w
  = (Ret tt, Extra.after_check w).
Proof.
  unfold try_except, bind, requests_send, raise_for_status, Extra.after_check.
  destruct (reply w (List.length (sent w))) as [|resp]; [reflexivity |].
  destruct ((400 <=? status_code resp) && (status_code resp <? 600));
    reflexivity.
Qed.

(** X8. A job that [create_job] created is deleted before [main] ends, however
    [run_job] ended: the last request [main] sends is the DELETE of that
    job, and it is the only DELETE since the job was created. *)
Theorem main_deletes_created_job
    (fuel : nat) (STATUS : bool) (w w1 w2 w' : world)
    (cookie_name token job_id : json) (o : outcome unit) :
  Main.authenticate (Extra.after_check w) = (Ret (cookie_name, token), w1) ->
  Main.create_job cookie_name token w1 = (Ret job_id, w2) ->
  job_id <> JNull ->
  Main.main fuel STATUS w = (o, w') ->
  o <> OutOfFuel ->
  exists during,
    sent w'
    = (Extra.delete_request cookie_name token job_id :: during ++ sent w2)%list
    /\ Forall (fun r => meth r <> DELETE) during.
Proof.
  intros Hauth Hcreate Hid H Hfuel.
  unfold Main.main in H. unfold bind at 1 in H. rewrite check_ignored in H.
  unfold bind at 1 in H. rewrite Hauth in H.
  unfold try_finally in H. rewrite Hcreate in H.
  assert (Hnn : is_not_none job_id = true)
    by (destruct job_id; try reflexivity; now contradiction Hid).
  rewrite Hnn in H. unfold bind at 1 in H.
  destruct (Main.run_job fuel job_id cookie_name token w2) as [r w3] eqn:Hrun.
  assert (Hsent : r <> OutOfFuel ->
            exists during,
              sent w3 = (during ++ sent w2)%list
              /\ Forall (fun r => meth r <> DELETE) during).
  { intros Hr. destruct (run_job_trace _ _ _ _ _ _ _ Hrun Hr)
      as (n & Hs & _).
    exists (repeat (mkRequest GET (Runs job_id)
                              (Some (cookie_name, token)) None) n
            ++ [mkRequest POST (Runs job_id) (Some (cookie_name, token))
                          (Some (JObj []))])%list.
    split.
    - rewrite Hs, <- app_assoc. reflexivity.
    - apply Forall_app. split.
      + apply Forall_forall. intros x Hx. apply repeat_spec in Hx. subst x.
        discriminate.
      + constructor; [discriminate | constructor]. }
  unfold Main.delete_job, bind, requests_send, ret in H.
  destruct r as [b | e |].
  - destruct (Hsent ltac:(discriminate)) as (during & Hs & Hd).
    exists during. cbn in H.
    destruct (reply w3 (List.length (sent w3)));
      injection H as <- <-; cbn; rewrite Hs; auto.
  - destruct (Hsent ltac:(discriminate)) as (during & Hs & Hd).
    exists during. cbn in H.
    destruct (reply w3 (List.length (sent w3)));
      injection H as <- <-; cbn; rewrite Hs; auto.
  - cbn in H. injection H as <- <-. now contradiction Hfuel.
Qed.

(** X9. When [create_job] raises, the [finally] clause of [main] reads
    [job_id] before any assignment to it: [main] ends in an
    [UnboundLocalError], which takes the place of the exception of
    [create_job], and no DELETE is sent. *)
Theorem main_masks_create_job_exception
    (fuel : nat) (STATUS : bool) (w w1 w2 : world)
    (cookie_name token : json) (e : exn) :
  Main.authenticate (Extra.after_check w) = (Ret (cookie_name, token), w1) ->
  Main.create_job cookie_name token w1 = (Raise e, w2) ->
  Main.main fuel STATUS w = (Raise UnboundLocalError, w2).
Proof.
  intros Hauth Hcreate.
  unfold Main.main. unfold bind at 1. rewrite check_ignored.
  unfold bind at 1. rewrite Hauth.
  unfold try_finally. rewrite Hcreate. reflexivity.
Qed.

End JobLifecycle.

#[local] Transparent Main.poll_loop.

(** On an example: config.toml is there, the server is not. *)
Lemma create_job_result_witness :
  sent (snd (Main.create_job Fixtures.cname Fixtures.tok Fixtures.offline))
  = [mkRequest POST Jobs (Some (Fixtures.cname, Fixtures.tok))
               (Some (JObj [("toml", JStr "type = 'directrequest'")]))].
Proof.
  apply (create_job_result Fixtures.cname Fixtures.tok Fixtures.offline
           (snd (Main.create_job Fixtures.cname Fixtures.tok
                                 Fixtures.offline))
           (fst (Main.create_job Fixtures.cname Fixtures.tok
                                 Fixtures.offline))).
  - symmetry. apply surjective_pairing.
  - reflexivity.
Defined.

(** On an example: the POST, then one GET that shows the run completed. *)
Lemma run_job_requests_witness :
  exists n,
    sent (snd (Main.run_job (lib := Fixtures.demo) 3 Fixtures.job
                 Fixtures.cname Fixtures.tok Extra.running))
    = (repeat (mkRequest GET (Runs Fixtures.job)
                         (Some (Fixtures.cname, Fixtures.tok)) None) n
       ++ mkRequest POST (Runs Fixtures.job)
                    (Some (Fixtures.cname, Fixtures.tok)) (Some (JObj []))
          :: sent Extra.running)%list.
Proof.
  destruct (run_job_requests (lib := Fixtures.demo) 3 Fixtures.job
              Fixtures.cname Fixtures.tok Extra.running
              (snd (Main.run_job (lib := Fixtures.demo) 3 Fixtures.job
                      Fixtures.cname Fixtures.tok Extra.running))
              (fst (Main.run_job (lib := Fixtures.demo) 3 Fixtures.job
                      Fixtures.cname Fixtures.tok Extra.running)))
    as [(n & Hs & _) _].
  - apply surjective_pairing.
  - vm_compute. discriminate.
  - exists n. exact Hs.
Defined.

(** On an example: the run of main.py where all goes well ends with the
    DELETE of job 7. *)
Lemma main_deletes_created_job_witness :
  exists during,
    sent (snd (Main.main (lib := Fixtures.demo) 3 false Fixtures.happy))
    = (Extra.delete_request Fixtures.cname Fixtures.tok Fixtures.job
       :: during
       ++ sent (snd (Main.create_job Fixtures.cname Fixtures.tok
                 (snd (Main.authenticate (lib := Fixtures.demo)
                         (Extra.after_check Fixtures.happy))))))%list
    /\ Forall (fun r => meth r <> DELETE) during.
Proof.
  apply (main_deletes_created_job (lib := Fixtures.demo) 3 false
           Fixtures.happy
           (snd (Main.authenticate (lib := Fixtures.demo)
                   (Extra.after_check Fixtures.happy)))
           (snd (Main.create_job Fixtures.cname Fixtures.tok
                   (snd (Main.authenticate (lib := Fixtures.demo)
                           (Extra.after_check Fixtures.happy)))))
           (snd (Main.main (lib := Fixtures.demo) 3 false Fixtures.happy))
           Fixtures.cname Fixtures.tok Fixtures.job
           (fst (Main.main (lib := Fixtures.demo) 3 false Fixtures.happy))).
  - vm_compute. reflexivity.
  - vm_compute. reflexivity.
  - discriminate.
  - apply surjective_pairing.
  - vm_compute. discriminate.
Defined.

(** On an example: a saved token and no connection; [create_job] raises a
    [RequestException], and [main] ends in the [UnboundLocalError]. *)
Lemma main_masks_create_job_exception_witness :
  fst (Main.create_job Fixtures.cname Fixtures.tok
         (snd (Main.authenticate (lib := Fixtures.demo)
                 (Extra.after_check Fixtures.cached))))
  = Raise RequestException
  /\ fst (Main.main (lib := Fixtures.demo) 3 false Fixtures.cached)
     = Raise UnboundLocalError.
Proof.
  split; [reflexivity |].
  rewrite (main_masks_create_job_exception (lib := Fixtures.demo) 3 false
             Fixtures.cached
             (snd (Main.authenticate (lib := Fixtures.demo)
                     (Extra.after_check Fixtures.cached)))
             (snd (Main.create_job Fixtures.cname Fixtures.tok
                     (snd (Main.authenticate (lib := Fixtures.demo)
                             (Extra.after_check Fixtures.cached)))))
             Fixtures.cname Fixtures.tok RequestException).
  - reflexivity.
  - vm_compute. reflexivity.
  - vm_compute. reflexivity.
Defined.

(** ** delete_all_jobs.py: the listing and the deletions *)

Section DeleteAll.
Context {lib : PyLib}.
Variables (cookie_name token : json).

(** On a listing of dicts, the comprehension of [list_job_ids] keeps the
    ids that are true, in the order of the listing. *)
Lemma collect_ids_filter (entries : list json) :
  forallb Extra.is_dict entries = true ->
  DeleteAllJobs.collect_ids entries
  = Ok (filter truthy (map Extra.id_of entries)).
Proof.
  induction entries as [|job rest IH]; cbn; [reflexivity |].
  destruct job; cbn; try discriminate. intros Hrest.
  rewrite (IH Hrest). reflexivity.
Qed.

(** X10. On a response that [raise_for_status] lets through and whose body
    lists dicts under ["data"], [list_job_ids] returns the ids of the
    entries in the order of the listing, without the entries whose id is
    missing, [null] or otherwise false; it has sent the one GET. *)
Theorem list_job_ids_filters
    (w : world) (resp : response) (doc : json) (entries : list json) :
  reply w (List.length (sent w)) = Response resp ->
  Spec.not_4xx_5xx (status_code resp) = true ->
  body resp = Doc doc ->
  get doc "data" (JList []) = Ok (JList entries) ->
  forallb Extra.is_dict entries = true ->
  exists w',
    DeleteAllJobs.list_job_ids cookie_name token w
    = (Ret (filter truthy (map Extra.id_of entries)), w')
    /\ sent w' = mkRequest GET Jobs (Some (cookie_name, token)) None :: sent w
    /\ reply w' = reply w.
Proof.
  intros Hreply Hstatus Hbody Hdata Hdicts.
  unfold Spec.not_4xx_5xx in Hstatus. apply negb_true_iff in Hstatus.
  unfold DeleteAllJobs.list_job_ids, try_except, bind, print, requests_send,
    raise_for_status.
  cbn -[Z.leb Z.ltb]. rewrite Hreply, Hstatus. cbn [ret].
  rewrite Hbody. cbn [json_load ret]. rewrite Hdata. cbn [lift ret iter].
  rewrite (collect_ids_filter _ Hdicts). cbn.
  eexists; repeat split.
Qed.

(** delete_all_jobs.py's [delete_job] always returns: [True] when the
    reply is a 200 or a 204, [False] on any other reply, no connection
    included; it has sent the one DELETE. *)
Lemma delete_job_effect (job_id : json) (w : world) :
  exists w',
    DeleteAllJobs.delete_job cookie_name token job_id w
    = (Ret (Extra.deleted_ok (reply w (List.length (sent w)))), w')
    /\ sent w' = Extra.delete_request cookie_name token job_id :: sent w
    /\ reply w' = reply w.
Proof.
  unfold DeleteAllJobs.delete_job, try_except, bind, print, requests_send.
  cbn -[Z.eqb]. unfold Extra.deleted_ok.
  destruct (reply w (List.length (sent w))) as [|resp]; cbn -[Z.eqb].
  - eexists; repeat split.
  - destruct ((status_code resp =? 200) || (status_code resp =? 204));
      cbn; eexists; repeat split.
Qed.

(** The loop over the job ids, reply by reply. *)
Lemma delete_each_trace (job_ids : list json) :
  forall (deleted_count failed_count : nat) (w : world),
    exists w',
      DeleteAllJobs.delete_each cookie_name token job_ids
                                deleted_count failed_count w
      = (Ret (deleted_count
              + List.length
                  (filter Extra.deleted_ok
                     (Extra.replies_from w (List.length (sent w))
                                         (List.length job_ids))),
              failed_count
              + List.length
                  (filter (fun r => negb (Extra.deleted_ok r))
                     (Extra.replies_from w (List.length (sent w))
                                         (List.length job_ids))))%nat,
         w')
      /\ sent w'
         = (rev (map (Extra.delete_request cookie_name token) job_ids)
            ++ sent w)%list
      /\ reply w' = reply w.
Proof.
  induction job_ids as [|job_id rest IH]; intros d f w.
  - cbn. exists w. rewrite !Nat.add_0_r. repeat split.
  - cbn [DeleteAllJobs.delete_each]. unfold bind.
    destruct (delete_job_effect job_id w) as (w1 & Hdel & Hsent & Hreply).
    rewrite Hdel.
    unfold Extra.replies_from.
    cbn [List.length seq map filter].
    destruct (Extra.deleted_ok (reply w (List.length (sent w)))) eqn:Hok.
    + destruct (IH (S d) f w1) as (w' & Hloop & Hs & Hr).
      exists w'. rewrite Hloop. unfold Extra.replies_from.
      rewrite Hsent, Hreply. cbn [List.length negb].
      repeat split.
      * now rewrite Nat.add_succ_r.
      * rewrite Hs, Hsent. cbn [map rev]. now rewrite <- app_assoc.
      * now rewrite Hr.
    + destruct (IH d (S f) w1) as (w' & Hloop & Hs & Hr).
      exists w'. rewrite Hloop. unfold Extra.replies_from.
      rewrite Hsent, Hreply. cbn [List.length negb].
      repeat split.
      * now rewrite Nat.add_succ_r.
      * rewrite Hs, Hsent. cbn [map rev]. now rewrite <- app_assoc.
      * now rewrite Hr.
Qed.

Lemma no_failure_iff (l : list http_result) :
  List.length (filter (fun r => negb (Extra.deleted_ok r)) l) = 0%nat
  <-> forallb Extra.deleted_ok l = true.
Proof.
  induction l as [|r l IH]; cbn; [tauto |].
  destruct (Extra.deleted_ok r); cbn; [exact IH |].
  split; discriminate.
Qed.

Lemma filter_split_length {A} (p : A -> bool) (l : list A) :
  (List.length (filter p l)
   + List.length (filter (fun x => negb (p x)) l))%nat
  = List.length l.
Proof.
  induction l as [|x l IH]; cbn; [reflexivity |].
  destruct (p x); cbn; lia.
Qed.

(** X11. Once a request with the Cookie header of the session has been
    answered (the listing GET has been when [main] gets to the loop), the
    loop over the job ids returns, whether a DELETE is answered or meets a
    network error.  It sends exactly one DELETE per id, in the order of the
    list; every id is counted once, as deleted or as failed, and none is
    counted as failed exactly when every DELETE got a 200 or a 204. *)
Theorem delete_each_counts
    (job_ids : list json) (deleted_count failed_count : nat) (w : world) :
  Extra.header_answered w cookie_name token ->
  exists deleted_count' failed_count' w',
    DeleteAllJobs.delete_each cookie_name token job_ids
                              deleted_count failed_count w
    = (Ret (deleted_count', failed_count'), w')
    /\ sent w'
       = (rev (map (Extra.delete_request cookie_name token) job_ids)
          ++ sent w)%list
    /\ (deleted_count' + failed_count'
        = deleted_count + failed_count + List.length job_ids)%nat
    /\ (failed_count' = failed_count <->
        forallb Extra.deleted_ok
                (Extra.replies_from w (List.length (sent w))
                                    (List.length job_ids)) = true).
Proof.
  intros _.
  destruct (delete_each_trace job_ids deleted_count failed_count w)
    as (w' & Hloop & Hs & _).
  do 3 eexists. split; [exact Hloop |]. split; [exact Hs |].
  pose proof (filter_split_length Extra.deleted_ok
                (Extra.replies_from w (List.length (sent w))
                                    (List.length job_ids))) as Hsplit.
  unfold Extra.replies_from in Hsplit at 3.
  rewrite length_map, length_seq in Hsplit.
  repeat split.
  - lia.
  - intros Hf. apply no_failure_iff. lia.
  - intros Hall. apply no_failure_iff in Hall. lia.
Qed.

(** X12. With a session and a listing that gave job ids, delete_all_jobs.py
    sends one DELETE per id and exits with 0 when every DELETE got a 200 or
    a 204, and with 1 as soon as one of them got anything else. *)
Theorem delete_all_jobs_exit_code
    (w w1 w2 : world) (job_ids : list json) :
  DeleteAllJobs.authenticate
    (snd (print "Starting job deletion process..." w))
  = (Ret (cookie_name, token), w1) ->
  DeleteAllJobs.list_job_ids cookie_name token w1 = (Ret job_ids, w2) ->
  job_ids <> [] ->
  exit_code (fst (DeleteAllJobs.main w))
  = Some (if forallb Extra.deleted_ok
                     (Extra.replies_from w2 (List.length (sent w2))
                                         (List.length job_ids))
          then 0 else 1)
  /\ sent (snd (DeleteAllJobs.main w))
     = (rev (map (Extra.delete_request cookie_name token) job_ids)
        ++ sent w2)%list.
Proof.
  intros Hauth Hlist Hne.
  assert (Hmain : exists w'',
             DeleteAllJobs.main w
             = (Raise (SystemExit
                         (if forallb Extra.deleted_ok
                               (Extra.replies_from w2
                                  (List.length (sent w2))
                                  (List.length job_ids))
                          then 0 else 1)), w'')
             /\ sent w''
                = (rev (map (Extra.delete_request cookie_name token) job_ids)
                   ++ sent w2)%list).
  { unfold DeleteAllJobs.main.
    unfold bind at 1. unfold print at 1.
    unfold bind at 1. cbn [snd print] in Hauth. rewrite Hauth.
    unfold bind at 1. rewrite Hlist.
    destruct job_ids as [|job_id rest]; [now contradiction Hne |].
    unfold bind at 1. unfold print at 1.
    unfold bind at 1.
    match goal with
    | |- context [DeleteAllJobs.delete_each _ _ ?ids _ _ ?X] =>
        destruct (delete_each_trace ids 0 0 X) as (w' & Hloop & Hs & Hr)
    end.
    rewrite Hloop. unfold Extra.replies_from in *.
    cbn [sent set_stdout reply] in Hs |- *.
    unfold bind, print, sys_exit, raise.
    match goal with
    | |- context [(0 <? ?n)%nat] => destruct (0 <? n)%nat eqn:Hf
    end.
    - apply Nat.ltb_lt in Hf.
      destruct (forallb _ _) eqn:Hall.
      + apply no_failure_iff in Hall. unfold Extra.replies_from in Hall.
        cbn [Nat.add] in Hf. lia.
      + eexists; split; [reflexivity | exact Hs].
    - apply Nat.ltb_ge in Hf.
      destruct (forallb _ _) eqn:Hall.
      + eexists; split; [reflexivity | exact Hs].
      + assert (Hz : forallb Extra.deleted_ok
                       (map (reply w2)
                          (seq (List.length (sent w2))
                               (List.length (job_id :: rest)))) = true)
          by (apply no_failure_iff; cbn [Nat.add] in Hf; lia).
        rewrite Hz in Hall. discriminate Hall. }
  destruct Hmain as (w'' & Hmain & Hs). rewrite Hmain. cbn [fst snd].
  split; [| exact Hs].
  destruct (forallb _ _); reflexivity.
Qed.

End DeleteAll.

(** On an example: three entries, two with an id. *)
Lemma list_job_ids_filters_witness :
  fst (DeleteAllJobs.list_job_ids Fixtures.cname Fixtures.tok Extra.two_jobs)
  = Ret [JStr "1"; JStr "2"].
Proof.
  destruct (list_job_ids_filters Fixtures.cname Fixtures.tok Extra.two_jobs
              (mkResponse 200 (Doc (JObj [("data",
                                           JList Extra.two_jobs_listing)])) [])
              (JObj [("data", JList Extra.two_jobs_listing)])
              Extra.two_jobs_listing
              eq_refl eq_refl eq_refl eq_refl eq_refl)
    as (w' & H & _).
  rewrite H. reflexivity.
Defined.

(** On an example: one job deleted and one not, so the exit code is 1. *)
Lemma delete_all_jobs_exit_code_witness :
  exit_code (fst (DeleteAllJobs.main (lib := Fixtures.demo) Extra.two_jobs))
  = Some 1.
Proof.
  destruct (delete_all_jobs_exit_code (lib := Fixtures.demo)
              Fixtures.cname Fixtures.tok Extra.two_jobs
              (snd (DeleteAllJobs.authenticate (lib := Fixtures.demo)
                      (snd (print "Starting job deletion process..."
                                  Extra.two_jobs))))
              (snd (DeleteAllJobs.list_job_ids Fixtures.cname Fixtures.tok
                      (snd (DeleteAllJobs.authenticate (lib := Fixtures.demo)
                              (snd (print "Starting job deletion process..."
                                          Extra.two_jobs))))))
              [JStr "1"; JStr "2"])
    as [H _].
  - vm_compute. reflexivity.
  - vm_compute. reflexivity.
  - discriminate.
  - rewrite H. reflexivity.
Defined.

(** On an example: after the listing of the two jobs, one DELETE gets a 204
    and one a 404. *)
Lemma delete_each_counts_witness :
  exists deleted_count' failed_count' w',
    DeleteAllJobs.delete_each Fixtures.cname Fixtures.tok
      [JStr "1"; JStr "2"] 0 0
      (snd (DeleteAllJobs.list_job_ids Fixtures.cname Fixtures.tok
                                       Extra.two_jobs))
    = (Ret (deleted_count', failed_count'), w')
    /\ (deleted_count' + failed_count' = 2)%nat.
Proof.
  destruct (delete_each_counts Fixtures.cname Fixtures.tok
              [JStr "1"; JStr "2"] 0 0
              (snd (DeleteAllJobs.list_job_ids Fixtures.cname Fixtures.tok
                                               Extra.two_jobs)))
    as (d & f & w' & Hloop & _ & Hsum & _).
  - exists (mkRequest GET Jobs (Some (Fixtures.cname, Fixtures.tok)) None),
      [], [], (mkResponse 200
                 (Doc (JObj [("data", JList Extra.two_jobs_listing)])) []).
    repeat split.
  - exists d, f, w'. split; [exact Hloop | exact Hsum].
Defined.

(** ** The token file and the session step *)

Section TokenFile.
Context {lib : PyLib}.

(** X13. [get_saved_token] only reads: it sends nothing, prints nothing and
    leaves the token file as it is.  Without a token file it returns
    [(None, None)]; on a token file that is no JSON it raises the
    [JSONDecodeError]; and a pair it returns is [(None, None)] or has a
    cookie name and a token that are both true. *)
Theorem get_saved_token_reads_only
    (w w' : world) (o : outcome (json * json)) :
  Main.get_saved_token w = (o, w') ->
  sent w' = sent w /\ token_file w' = token_file w /\ stdout w' = stdout w
  /\ (token_file w = None -> o = Ret (JNull, JNull))
  /\ (forall s, token_file w = Some (Garbage s) -> o = Raise JSONDecodeError)
  /\ (forall cookie_name token,
         o = Ret (cookie_name, token) ->
         (cookie_name = JNull /\ token = JNull)
         \/ (truthy cookie_name = true /\ truthy token = true)).
Proof.
  intros H. unfold Main.get_saved_token in H. exec_all H.
  all: injection H as <- <-; cbn.
  all: repeat split; try discriminate; auto.
  all: try (intros cn tk Hp; injection Hp as <- <-; auto).
  all: right; apply andb_prop in Heqb; destruct Heqb as [Hb _];
    apply andb_prop in Hb; destruct Hb; auto.
Qed.

(** X14. What [save_token] writes, [get_saved_token] reads back: after
    [save_token] of a cookie name and a token that are both true,
    [get_saved_token] returns that pair as long as the clock is before the
    expiry, and [(None, None)] from the expiry on.  (The library is taken
    to read back the datetimes it writes, as a non-empty string.) *)
Theorem saved_token_round_trip
    (cookie_name token : json) (expiration : datetime) (w : world) :
  fromisoformat (isoformat expiration) = Some expiration ->
  isoformat expiration <> "" ->
  truthy cookie_name = true ->
  truthy token = true ->
  fst (Main.get_saved_token
         (snd (Main.save_token cookie_name token expiration w)))
  = Ret (if today w (readings w) <? expiration
         then (cookie_name, token)
         else (JNull, JNull)).
Proof.
  intros Hiso Hne Hname Htok.
  unfold Main.save_token, Main.get_saved_token. unfold_effects.
  cbn -[Z.ltb truthy]. rewrite Htok, Hname. cbn [truthy].
  apply String.eqb_neq in Hne. rewrite Hne. cbn [negb andb].
  rewrite Hiso. cbn -[Z.ltb].
  destruct (today w (readings w) <? expiration); reflexivity.
Qed.

Lemma get_saved_token_frame (w w' : world) (o : outcome (json * json)) :
  Main.get_saved_token w = (o, w') ->
  sent w' = sent w /\ token_file w' = token_file w.
Proof.
  intros H. unfold Main.get_saved_token in H. exec_all H.
  all: injection H as <- <-; cbn; split; auto.
Qed.

#[local] Opaque Main.get_saved_token Main.login DeleteAllJobs.login.

(** X15. The session step of either script returns only a cookie name and a
    token that are both true, and it has sent nothing, or the one POST of
    the login. *)
Theorem authenticate_returns_usable_pair
    (w w' : world) (cookie_name token : json) :
  Main.authenticate w = (Ret (cookie_name, token), w')
  \/ DeleteAllJobs.authenticate w = (Ret (cookie_name, token), w') ->
  truthy cookie_name = true /\ truthy token = true
  /\ (sent w' = sent w
      \/ exists rq, sent w' = rq :: sent w
                    /\ meth rq = POST /\ target rq = Sessions).
Proof.
  intros [H | H].
  all: unfold Main.authenticate, DeleteAllJobs.authenticate,
         DeleteAllJobs.get_saved_token in H; exec_all H.
  all: injection H as <- <- <-.
  all: match goal with
       | E : _ || _ = false |- _ =>
           apply orb_false_elim in E; destruct E as [E1 E2];
           apply negb_false_iff in E1, E2
       end.
  all: repeat split; auto.
  all: match goal with
       | E : Main.get_saved_token _ = _ |- _ =>
           apply get_saved_token_frame in E; destruct E as [Es _]
       end.
  all: try (left; cbn; exact Es).
  all: right.
  all: match goal with
       | E : Main.login _ = _ |- _ =>
           destruct (login_one_request _ _ _ (or_introl E))
             as (rq & Hrq & Hm & Ht)
       | E : DeleteAllJobs.login _ = _ |- _ =>
           destruct (login_one_request _ _ _ (or_intror E))
             as (rq & Hrq & Hm & Ht)
       end.
  all: exists rq; cbn in *.
  all: rewrite Hrq, Es; auto.
Qed.

#[local] Transparent Main.get_saved_token Main.login DeleteAllJobs.login.

(** X16. With a setting missing or empty, be it the base URL, the e-mail or the
    password, both scripts stop at once with a [ValueError] (exit code 1):
    nothing is sent, read, written or printed. *)
Theorem scripts_need_settings (fuel : nat) (w : world) :
  Extra.configured w = false ->
  Main.script fuel w = (Raise ValueError, w)
  /\ DeleteAllJobs.script w = (Raise ValueError, w).
Proof.
  intros H.
  assert (Hinit : Main.module_init w = (Raise ValueError, w)).
  { unfold Main.module_init, bind, os_getenv, raise, ret.
    unfold Extra.configured, Extra.setting in H. cbn [truthy].
    destruct (environ w "BASE_URL") as [b|]; cbn; [| reflexivity].
    destruct (b =? "")%string; cbn; [reflexivity |].
    destruct (environ w "EMAIL") as [e|], (environ w "PASSWORD") as [p|];
      cbn in *; try reflexivity.
    - destruct (e =? "")%string, (p =? "")%string; cbn in *;
        try reflexivity; discriminate H.
    - destruct (e =? "")%string; reflexivity. }
  unfold Main.script, DeleteAllJobs.script, DeleteAllJobs.module_init, bind.
  rewrite Hinit. split; reflexivity.
Qed.

End TokenFile.

(** On an example: a token file that is no JSON. *)
Lemma get_saved_token_reads_only_witness :
  fst (Main.get_saved_token (lib := Fixtures.demo) Fixtures.fresh_login)
  = Raise JSONDecodeError.
Proof.
  destruct (get_saved_token_reads_only (lib := Fixtures.demo)
              Fixtures.fresh_login
              (snd (Main.get_saved_token (lib := Fixtures.demo)
                      Fixtures.fresh_login))
              (fst (Main.get_saved_token (lib := Fixtures.demo)
                      Fixtures.fresh_login))
              (surjective_pairing _))
    as (_ & _ & _ & _ & H & _).
  exact (H "stale" eq_refl).
Defined.

(** On an example: read at 1000 s, a token saved with an expiry at 500 s
    and one saved with an expiry at 5000 s. *)
Lemma saved_token_round_trip_witness :
  fst (Main.get_saved_token (lib := Fixtures.demo)
         (snd (Main.save_token (lib := Fixtures.demo) Fixtures.cname
                 Fixtures.tok 500000000 Fixtures.cached)))
  = Ret (JNull, JNull)
  /\ fst (Main.get_saved_token (lib := Fixtures.demo)
            (snd (Main.save_token (lib := Fixtures.demo) Fixtures.cname
                    Fixtures.tok 5000000000 Fixtures.cached)))
     = Ret (Fixtures.cname, Fixtures.tok).
Proof.
  split.
  - reflexivity.
  - rewrite (saved_token_round_trip (lib := Fixtures.demo) Fixtures.cname
               Fixtures.tok 5000000000 Fixtures.cached);
      [reflexivity | reflexivity | discriminate | reflexivity | reflexivity].
Defined.

(** On an example: the saved pair. *)
Lemma authenticate_returns_usable_pair_witness :
  truthy Fixtures.cname = true /\ truthy Fixtures.tok = true
  /\ (sent (snd (Main.authenticate (lib := Fixtures.demo) Fixtures.cached))
      = sent Fixtures.cached
      \/ exists rq,
           sent (snd (Main.authenticate (lib := Fixtures.demo)
                        Fixtures.cached))
           = rq :: sent Fixtures.cached
           /\ meth rq = POST /\ target rq = Sessions).
Proof.
  apply (authenticate_returns_usable_pair (lib := Fixtures.demo)
           Fixtures.cached
           (snd (Main.authenticate (lib := Fixtures.demo) Fixtures.cached))).
  left. vm_compute. reflexivity.
Defined.

(** A login that brings a cookie without a value: the credential is saved,
    and the session step exits with 1 all the same. *)
Example authenticate_empty_cookie :
  fst (Main.authenticate (lib := Fixtures.demo) Extra.empty_cookie)
  = Raise (SystemExit 1)
  /\ token_file (snd (Main.authenticate (lib := Fixtures.demo)
                        Extra.empty_cookie))
     <> None.
Proof. split; [reflexivity | discriminate]. Qed.

(** On an example: the password is the empty string. *)
Lemma scripts_need_settings_witness :
  Main.script (lib := Fixtures.demo) 3 Extra.empty_password
  = (Raise ValueError, Extra.empty_password).
Proof.
  apply (scripts_need_settings (lib := Fixtures.demo) 3 Extra.empty_password).
  reflexivity.
Defined.

(** ** Fatal errors, whatever else the record holds *)

(** X5. A non-null entry in the list of fatal errors decides alone: the run is
    "errored" whatever the other attributes are, a status of "completed"
    and a status that is no string included. *)
Theorem fatal_errors_decide
    (items attributes : list (string * json)) (fatal_errors : list json)
    (w : world) :
  item items "attributes" (JObj []) = JObj attributes ->
  item attributes "fatalErrors" (JList []) = JList fatal_errors ->
  existsb is_not_none fatal_errors = true ->
  Main.inspect_run (JObj items) w
  = (Ret (Main.Return (Some Main.errored)),
     set_stdout ("Job run failed with fatalErrors: {fatal_errors}"
                 :: stdout w) w).
Proof.
  intros Hattrs Hfatal Hany.
  unfold Main.inspect_run, bind, lift, get, any, iter, ret, print.
  rewrite Hattrs, Hfatal.
  destruct fatal_errors as [|e rest]; [discriminate Hany |].
  cbn [truthy]. rewrite Hany. reflexivity.
Qed.

(** On an example: a fatal error beside a status that is a number. *)
Lemma fatal_errors_decide_witness :
  fst (Main.inspect_run
         (Fixtures.run_with [ ("status", JNum 5);
                              ("fatalErrors", JList [JStr "boom"]) ])
         Fixtures.offline)
  = Ret (Main.Return (Some Main.errored)).
Proof.
  unfold Fixtures.run_with.
  rewrite (fatal_errors_decide
             [ ("id", JStr "42");
               ("attributes",
                JObj [ ("status", JNum 5);
                       ("fatalErrors", JList [JStr "boom"]) ]) ]
             [("status", JNum 5); ("fatalErrors", JList [JStr "boom"])]
             [JStr "boom"] Fixtures.offline eq_refl eq_refl eq_refl).
  reflexivity.
Defined.
